(** * Meshtastic button and text platforms

    A shallow embedding of [custom_components/meshtastic/button.py] and
    [custom_components/meshtastic/text.py], and the properties of the
    reboot button and of the two chat entities proved over it.

    Layout: Python values and the string operations the code uses; the
    effect monad (exceptions, the entity being mutated, the Home Assistant
    instance); the device client; one module per source file with one
    module per class; then the theorems. *)

From Stdlib Require Import ZArith Lia Ascii String Floats.SpecFloat.
From stdpp Require Import base strings gmap list pretty.

#[local] Set Warnings "-register-all".
#[local] Open Scope Z_scope.

(** ** Python values *)

(** The values an event payload or a call argument can hold. A float is
    an IEEE 754 value ([spec_float]); the code stores floats and never
    computes with them. Strings are byte strings. *)
Inductive pyval :=
| PNone
| PBool (b : bool)
| PInt (z : Z)
| PFloat (f : spec_float)
| PStr (s : string)
| PList (l : list pyval)
| PDict (d : gmap string pyval).

Abbreviation pydict := (gmap string pyval).

(** [d.get(key, default)] *)
Definition dict_get (d : pydict) (key : string) (dflt : pyval) : pyval :=
  default dflt (d !! key).

(** [d.get(key)]: the default is [None]. *)
Definition dict_get_none (d : pydict) (key : string) : pyval :=
  dict_get d key PNone.

(** [v == s] for a [str] [s]: only an equal [str] compares equal. *)
Definition eq_str (v : pyval) (s : string) : bool :=
  match v with
  | PStr s' => String.eqb s' s
  | _ => false
  end.

(** A [datetime] is represented by what its [timestamp()] returns. *)
Record datetime := { timestamp : spec_float }.

(** ** Exceptions and results *)

Definition ClientRef := nat.

(** A call as the client object receives it: method name, positional
    arguments, keyword arguments. *)
Record ClientCall := {
  method : string;
  args : list pyval;
  kwargs : list (string * pyval)
}.

Inductive exn :=
| IndexError
| ValueError
| AttributeError
| ClientError (c : ClientRef) (call : ClientCall).

Inductive result (A : Type) :=
| Return (a : A)
| Raise (e : exn).
Arguments Return {A} a.
Arguments Raise {A} e.

(** What the code takes from outside these two files. From [const.py]
    and [entity.py]: the domain string,
    [GatewayChannelEntity.build_unique_id] and
    [GatewayDirectMessageEntity.build_unique_id]. From Python: what
    [int] answers on a text with characters beyond ASCII, where it goes by
    the Unicode tables of decimal digits and of spaces. *)
Class Imports := {
  DOMAIN : string;
  channel_build_unique_id : string -> Z -> Z -> string;
  dm_build_unique_id : string -> Z -> string;
  int_beyond_ascii : string -> result Z
}.

(** ** String operations *)

(** [s.split(sep)] for a one-character separator: never empty. *)
Fixpoint split (sep : ascii) (s : string) : list string :=
  match s with
  | EmptyString => [EmptyString]
  | String c s' =>
      if Ascii.eqb c sep then EmptyString :: split sep s'
      else match split sep s' with
           | [] => [String c EmptyString]
           | w :: ws => String c w :: ws
           end
  end.

(** [l[i]] for a literal index [i >= 0]. *)
Definition getitem {A} (l : list A) (i : nat) : result A :=
  match l !! i with
  | Some x => Return x
  | None => Raise IndexError
  end.

(** Strings all of whose characters satisfy a test. *)
Fixpoint every (p : ascii -> bool) (s : string) : bool :=
  match s with
  | EmptyString => true
  | String c s' => p c && every p s'
  end.

Definition is_ascii (c : ascii) : bool := (nat_of_ascii c <? 128)%nat.

(** The blanks [int] skips around an ASCII text: tab, line feed, vertical
    tab, form feed, carriage return and space. *)
Definition is_space (c : ascii) : bool :=
  let n := nat_of_ascii c in
  ((9 <=? n) && (n <=? 13) || (n =? 32))%nat.

Fixpoint lstrip (s : string) : string :=
  match s with
  | String c s' => if is_space c then lstrip s' else s
  | EmptyString => EmptyString
  end.

Fixpoint rstrip (s : string) : string :=
  match s with
  | EmptyString => EmptyString
  | String c s' =>
      match rstrip s' with
      | EmptyString => if is_space c then EmptyString else String c EmptyString
      | r => String c r
      end
  end.

Definition digit_of (c : ascii) : option Z :=
  let n := nat_of_ascii c in
  if ((48 <=? n) && (n <=? 57))%nat then Some (Z.of_nat n - 48) else None.

(** The digits that follow a digit: more digits, each of which one
    underscore may precede. *)
Fixpoint digits (acc : Z) (s : string) : option Z :=
  match s with
  | EmptyString => Some acc
  | String c s' =>
      match digit_of c with
      | Some d => digits (10 * acc + d) s'
      | None =>
          if Ascii.eqb c "_" then
            match s' with
            | String c' s'' =>
                match digit_of c' with
                | Some d => digits (10 * acc + d) s''
                | None => None
                end
            | EmptyString => None
            end
          else None
      end
  end.

Definition unsigned (s : string) : result Z :=
  match s with
  | EmptyString => Raise ValueError
  | String c s' =>
      match digit_of c with
      | Some d =>
          match digits d s' with
          | Some z => Return z
          | None => Raise ValueError
          end
      | None => Raise ValueError
      end
  end.

(** [int(s)] for an ASCII [str]: surrounding blanks are skipped, one sign
    is accepted, the rest must be decimal digits, with single underscores
    between digits. *)
Definition int_ascii (s : string) : result Z :=
  match rstrip (lstrip s) with
  | EmptyString => Raise ValueError
  | String c s' =>
      if Ascii.eqb c "-" then
        match unsigned s' with
        | Return z => Return (- z)
        | Raise e => Raise e
        end
      else if Ascii.eqb c "+" then unsigned s'
      else unsigned (String c s')
  end.

(** [int(s)] for a [str]. *)
Definition int `{Imports} (s : string) : result Z :=
  if every is_ascii s then int_ascii s else int_beyond_ascii s.

(** [str(z)] of an [int], as it appears in an f-string. *)
Definition str (z : Z) : string := pretty z.

(** [s.lower()] on ASCII letters; bytes outside ASCII are left as they
    are. *)
Definition lower_char (c : ascii) : ascii :=
  let n := nat_of_ascii c in
  if ((65 <=? n) && (n <=? 90))%nat then ascii_of_nat (n + 32) else c.

Fixpoint lower (s : string) : string :=
  match s with
  | EmptyString => EmptyString
  | String c s' => String (lower_char c) (lower s')
  end.

(** [s.replace(old, new)] for one-character [old] and [new]. *)
Fixpoint replace (old new : ascii) (s : string) : string :=
  match s with
  | EmptyString => EmptyString
  | String c s' =>
      String (if Ascii.eqb c old then new else c) (replace old new s')
  end.

(** ** The device client and the Home Assistant instance *)

(** The dictionaries the client returns, with the keys the code reads.
    [None] is an absent key. *)
Record User := { shortName : option string }.

Record OwnNode := { num : Z; user : option User }.

Record ChannelSettings := {
  name : string;
  psk : string;
  uplinkEnabled : bool;
  downlinkEnabled : bool
}.

Record Channel := {
  index : Z;
  role : string;
  settings : ChannelSettings
}.

(** The client is an external object: what it answers, and, given the
    calls made so far, whether the next call raises. *)
Record Client := {
  own_node : OwnNode;
  channels : list Channel;
  raises : list (ClientRef * ClientCall) -> ClientCall -> bool
}.

(** One [async_write_ha_state()]: what the entity shows at that moment. *)
Record StateWrite := {
  written_unique_id : string;
  written_state : option string;
  written_history : list pydict
}.

Record HomeAssistant := {
  clients : ClientRef -> Client;
  client_calls : list (ClientRef * ClientCall);
  entity_registry : gmap (string * string * string) string;
  states : list StateWrite;
  logged : list (string * list pyval)
}.

Definition with_call (h : HomeAssistant) (c : ClientRef) (call : ClientCall)
  : HomeAssistant :=
  {| clients := clients h;
     client_calls := client_calls h ++ [(c, call)];
     entity_registry := entity_registry h;
     states := states h;
     logged := logged h |}.

Definition with_state (h : HomeAssistant) (w : StateWrite) : HomeAssistant :=
  {| clients := clients h;
     client_calls := client_calls h;
     entity_registry := entity_registry h;
     states := states h ++ [w];
     logged := logged h |}.

Definition with_log (h : HomeAssistant) (fmt : string) (a : list pyval)
  : HomeAssistant :=
  {| clients := clients h;
     client_calls := client_calls h;
     entity_registry := entity_registry h;
     states := states h;
     logged := logged h ++ [(fmt, a)] |}.

(** ** The effect monad

    A computation runs on the object it mutates ([self], or the list a
    function builds) and on the Home Assistant instance. When it raises,
    the mutations made up to that point stay. *)
Definition Py (S A : Type) : Type :=
  S -> HomeAssistant -> result A * S * HomeAssistant.

#[global] Instance Py_ret {S} : MRet (Py S) :=
  fun A a s h => (Return a, s, h).

#[global] Instance Py_bind {S} : MBind (Py S) :=
  fun A B f m s h =>
    match m s h with
    | (Return a, s', h') => f a s' h'
    | (Raise e, s', h') => (Raise e, s', h')
    end.

Definition lift {S A} (r : result A) : Py S A := fun s h => (r, s, h).

Definition get {S} : Py S S := fun s h => (Return s, s, h).

Definition put {S} (s : S) : Py S unit := fun _ h => (Return tt, s, h).

Definition hass {S} : Py S HomeAssistant := fun s h => (Return h, s, h).

(** A call on the client [c]: the call is received, then it returns or
    raises. *)
Definition call {S} (c : ClientRef) (cl : ClientCall) : Py S unit :=
  fun s h =>
    if raises (clients h c) (client_calls h) cl
    then (Raise (ClientError c cl), s, with_call h c cl)
    else (Return tt, s, with_call h c cl).

(** [_LOGGER.info] with a format string and its arguments. *)
Definition info {S} (fmt : string) (a : list pyval) : Py S unit :=
  fun s h => (Return tt, s, with_log h fmt a).

(** [for x in l: body(x)] *)
Fixpoint for_ {S A} (l : list A) (body : A -> Py S unit) : Py S unit :=
  match l with
  | [] => mret tt
  | x :: l' => body x ;; for_ l' body
  end.

(** ** The client's methods, as the code calls them *)

Definition get_own_node {S} (c : ClientRef) : Py S OwnNode :=
  call c {| method := "get_own_node"; args := []; kwargs := [] |};;
  h ← hass;
  mret (own_node (clients h c)).

Definition async_get_own_node {S} (c : ClientRef) : Py S OwnNode :=
  call c {| method := "async_get_own_node"; args := []; kwargs := [] |};;
  h ← hass;
  mret (own_node (clients h c)).

Definition async_get_channels {S} (c : ClientRef) : Py S (list Channel) :=
  call c {| method := "async_get_channels"; args := []; kwargs := [] |};;
  h ← hass;
  mret (channels (clients h c)).

(** [client.send_text] with positional and keyword arguments. *)
Definition send_text {S} (c : ClientRef) (a : list pyval)
    (kw : list (string * pyval)) : Py S unit :=
  call c {| method := "send_text"; args := a; kwargs := kw |}.

(** [client.reboot] with positional arguments. *)
Definition reboot {S} (c : ClientRef) (a : list pyval) : Py S unit :=
  call c {| method := "reboot"; args := a; kwargs := [] |}.

(** [entry.runtime_data] and the config entry. The coordinator is only
    passed along. *)
Record RuntimeData := { coordinator : nat; client : ClientRef }.

Record ConfigEntry := { entry_id : string; runtime_data : RuntimeData }.

(** * button.py *)

Module button.

Record ButtonEntityDescription := {
  key : string;
  name : string;
  icon : string
}.

Module MeshtasticNodeRebootButton.

(** [MeshtasticNodeEntity.__init__] (entity.py) receives the
    coordinator, the gateway, the node id, the platform and the
    description; [async_press] reads the node id back as
    [self._node_id]. *)
Record t := {
  coordinator : nat;
  gateway : OwnNode;
  _node_id : Z;
  platform : string;
  entity_description : ButtonEntityDescription;
  _client : ClientRef
}.

Definition __init__ (coordinator : nat)
    (entity_description : ButtonEntityDescription) (gateway : OwnNode)
    (node_id : Z) (client : ClientRef) : t :=
  {| coordinator := coordinator;
     gateway := gateway;
     _node_id := node_id;
     platform := "button";
     entity_description := entity_description;
     _client := client |}.

Definition async_press : Py t unit :=
  self ← get;
  info "Rebooting node %s" [PInt (_node_id self)];;
  reboot (_client self) [PInt 5].

End MeshtasticNodeRebootButton.

(** [nodes] is a dict keyed by node id; iterating it yields its keys in
    insertion order. Every button is given the one client of
    [runtime_data]. *)
Definition _build_buttons (nodes : list (Z * pydict))
    (runtime_data : RuntimeData)
  : Py unit (list MeshtasticNodeRebootButton.t) :=
  info "Building buttons for %d nodes: %s"
    [PInt (Z.of_nat (length nodes)); PList (PInt <$> nodes.*1)];;
  let coordinator := coordinator runtime_data in
  gateway ← get_own_node (client runtime_data);
  let entity_description :=
    {| key := "reboot"; name := "Reboot"; icon := "mdi:restart" |} in
  let buttons :=
    (fun node_id =>
       MeshtasticNodeRebootButton.__init__ coordinator entity_description
         gateway node_id (client runtime_data)) <$> nodes.*1 in
  info "Created %d button entities" [PInt (Z.of_nat (length buttons))];;
  mret buttons.

End button.

(** * text.py *)

Module text.

(** An event of the bus: its payload and the time it was fired. The
    entities listen to [EVENT_MESHTASTIC_DOMAIN_EVENT] only, so every
    event a handler receives is of that type. *)
Record Event := { data : pydict; time_fired : datetime }.

Record MockGatewayEntity := { suggested_object_id : string }.

(** The base classes of entity.py, by the arguments their constructors
    receive. [GatewayChannelEntity] keeps the channel index as
    [self._index], which the subclass reads. *)
Module GatewayChannelEntity.
Record t := {
  config_entry_id : string;
  gateway_node : Z;
  gateway_entity : MockGatewayEntity;
  _index : Z;
  name : string;
  settings : pydict;
  primary : bool;
  secondary : bool;
  has_logbook : bool
}.
End GatewayChannelEntity.

Module GatewayDirectMessageEntity.
Record t := {
  config_entry_id : string;
  gateway_node : Z;
  gateway_entity : MockGatewayEntity;
  has_logbook : bool
}.
End GatewayDirectMessageEntity.

(** [own_node.get("user", {}).get("shortName", "UNK")] *)
Definition short_name_of (own : OwnNode) : string :=
  match user own with
  | Some u => default "UNK" (shortName u)
  | None => "UNK"
  end.

Module MeshtasticChatMixin.

(** What the mixin needs of the class it is mixed into: the
    [_history] attribute, and the state the entity publishes.
    [_attr_extra_state_attributes["history"]] is the same list object
    as [_history], so it is not a separate component. *)
Class t (E : Type) := {
  _history : E -> list pydict;
  set_history : list pydict -> E -> E;
  shown : E -> StateWrite
}.

(** [self._history = []] *)
Definition __init__ : list pydict := [].

(** [self.async_write_ha_state()], inherited from the framework's entity
    class. The framework computes the state of a text entity from
    [_attr_native_value], which has no default: while it was never
    assigned, reading it raises [AttributeError] and nothing is written.
    Otherwise the state shown at that moment is recorded. *)
Definition async_write_ha_state `{t E} : Py E unit :=
  fun self h =>
    match written_state (shown self) with
    | Some _ => (Return tt, self, with_state h (shown self))
    | None => (Raise AttributeError, self, h)
    end.

Definition entry (from_node message : pyval) (timestamp : spec_float)
  : pydict :=
  {[ "from" := from_node;
     "message" := message;
     "timestamp" := PFloat timestamp ]}.

(** [l.pop(0)] on a list known to be non-empty. *)
Definition pop0 (l : list pydict) : list pydict := drop 1 l.

Definition _add_to_history `{t E} (from_node message : pyval)
    (timestamp : spec_float) : Py E unit :=
  self ← get;
  put (set_history (_history self ++ [entry from_node message timestamp])
         self);;
  self ← get;
  (if (50 <? length (_history self))%nat
   then put (set_history (pop0 (_history self)) self)
   else mret tt);;
  async_write_ha_state.

End MeshtasticChatMixin.

Module MeshtasticChannelText.
Section Class_.
Context `{Imports}.

Record t := {
  base : GatewayChannelEntity.t;
  _history : list pydict;
  _client : ClientRef;
  _attr_name : string;
  _attr_unique_id : string;
  _attr_native_value : option string
}.

Definition _index (self : t) : Z := GatewayChannelEntity._index (base self).

Definition set_history (l : list pydict) (self : t) : t :=
  {| base := base self;
     _history := l;
     _client := _client self;
     _attr_name := _attr_name self;
     _attr_unique_id := _attr_unique_id self;
     _attr_native_value := _attr_native_value self |}.

Definition set_native_value (v : string) (self : t) : t :=
  {| base := base self;
     _history := _history self;
     _client := _client self;
     _attr_name := _attr_name self;
     _attr_unique_id := _attr_unique_id self;
     _attr_native_value := Some v |}.

#[export] Instance mixin : MeshtasticChatMixin.t t := {|
  MeshtasticChatMixin._history := _history;
  MeshtasticChatMixin.set_history := set_history;
  MeshtasticChatMixin.shown := fun self =>
    {| written_unique_id := _attr_unique_id self;
       written_state := _attr_native_value self;
       written_history := _history self |}
|}.

(** [_attr_native_value] is not assigned by the constructor. *)
Definition __init__ {S} (config_entry_id : string) (gateway_node : Z)
    (index : Z) (name : string) (primary secondary : bool)
    (client : ClientRef) : Py S t :=
  own_node ← get_own_node client;
  let short_name := short_name_of own_node in
  let gateway_entity :=
    {| suggested_object_id := "gateway " +:+ short_name |} in
  mret
    {| base :=
         {| GatewayChannelEntity.config_entry_id := config_entry_id;
            GatewayChannelEntity.gateway_node := gateway_node;
            GatewayChannelEntity.gateway_entity := gateway_entity;
            GatewayChannelEntity._index := index;
            GatewayChannelEntity.name := name;
            GatewayChannelEntity.settings :=
              {[ "psk" := PStr "";
                 "uplinkEnabled" := PBool true;
                 "downlinkEnabled" := PBool true ]};
            GatewayChannelEntity.primary := primary;
            GatewayChannelEntity.secondary := secondary;
            GatewayChannelEntity.has_logbook := false |};
       _history := MeshtasticChatMixin.__init__;
       _client := client;
       _attr_name :=
         (if String.eqb name "" then
            if primary then "Primary"
            else if secondary then "Secondary"
            else "Channel " +:+ str index
          else name) +:+ " Chat";
       _attr_unique_id :=
         config_entry_id +:+ "_chat_channel_" +:+ str gateway_node
           +:+ "_" +:+ str index;
       _attr_native_value := None |}.

Definition async_set_value (value : string) : Py t unit :=
  self ← get;
  send_text (_client self) [PStr value]
    [("channel_index", PInt (_index self))];;
  self ← get;
  put (set_native_value "" self);;
  MeshtasticChatMixin.async_write_ha_state.

Definition _on_meshtastic_event (event : Event) : Py t unit :=
  self ← get;
  let data := data event in
  p0 ← lift (getitem (split "_" (_attr_unique_id self)) 0);
  p3 ← lift (getitem (split "_" (_attr_unique_id self)) 3);
  node ← lift (int p3);
  let channel_unique_id :=
    channel_build_unique_id p0 node (_index self) in
  h ← hass;
  let channel_entity_id :=
    entity_registry h !! (DOMAIN, DOMAIN, channel_unique_id) in
  match channel_entity_id with
  | Some eid =>
      if negb (String.eqb eid "")
         && eq_str (dict_get_none data "entity_id") eid
      then MeshtasticChatMixin._add_to_history
             (dict_get data "from" (PStr "?"))
             (dict_get data "message" (PStr ""))
             (timestamp (time_fired event))
      else mret tt
  | None => mret tt
  end.

(** The [suggested_object_id] property: ["Primary Chat"] gives
    ["meshtastic_primary_chat"]. *)
Definition suggested_object_id (self : t) : string :=
  let clean_name := replace " " "_" (lower (_attr_name self)) in
  "meshtastic_" +:+ clean_name.

End Class_.
End MeshtasticChannelText.

Module MeshtasticDirectMessageText.
Section Class_.
Context `{Imports}.

Record t := {
  base : GatewayDirectMessageEntity.t;
  _history : list pydict;
  _client : ClientRef;
  _attr_name : string;
  _attr_unique_id : string;
  _attr_native_value : option string
}.

Definition set_history (l : list pydict) (self : t) : t :=
  {| base := base self;
     _history := l;
     _client := _client self;
     _attr_name := _attr_name self;
     _attr_unique_id := _attr_unique_id self;
     _attr_native_value := _attr_native_value self |}.

Definition set_native_value (v : string) (self : t) : t :=
  {| base := base self;
     _history := _history self;
     _client := _client self;
     _attr_name := _attr_name self;
     _attr_unique_id := _attr_unique_id self;
     _attr_native_value := Some v |}.

#[export] Instance mixin : MeshtasticChatMixin.t t := {|
  MeshtasticChatMixin._history := _history;
  MeshtasticChatMixin.set_history := set_history;
  MeshtasticChatMixin.shown := fun self =>
    {| written_unique_id := _attr_unique_id self;
       written_state := _attr_native_value self;
       written_history := _history self |}
|}.

(** [_attr_native_value] is not assigned by the constructor. *)
Definition __init__ {S} (config_entry_id : string) (gateway_node : Z)
    (client : ClientRef) : Py S t :=
  own_node ← get_own_node client;
  let short_name := short_name_of own_node in
  let gateway_entity :=
    {| suggested_object_id := "gateway " +:+ short_name |} in
  mret
    {| base :=
         {| GatewayDirectMessageEntity.config_entry_id := config_entry_id;
            GatewayDirectMessageEntity.gateway_node := gateway_node;
            GatewayDirectMessageEntity.gateway_entity := gateway_entity;
            GatewayDirectMessageEntity.has_logbook := false |};
       _history := MeshtasticChatMixin.__init__;
       _client := client;
       _attr_name := "Direct Message Chat";
       _attr_unique_id :=
         config_entry_id +:+ "_chat_dm_" +:+ str gateway_node;
       _attr_native_value := None |}.

Definition async_set_value (value : string) : Py t unit :=
  self ← get;
  send_text (_client self) [PStr value] [];;
  self ← get;
  put (set_native_value "" self);;
  MeshtasticChatMixin.async_write_ha_state.

Definition _on_meshtastic_event (event : Event) : Py t unit :=
  self ← get;
  let data := data event in
  p0 ← lift (getitem (split "_" (_attr_unique_id self)) 0);
  p3 ← lift (getitem (split "_" (_attr_unique_id self)) 3);
  node ← lift (int p3);
  let dm_unique_id := dm_build_unique_id p0 node in
  h ← hass;
  let dm_entity_id :=
    entity_registry h !! (DOMAIN, DOMAIN, dm_unique_id) in
  match dm_entity_id with
  | Some eid =>
      if negb (String.eqb eid "")
         && eq_str (dict_get_none data "entity_id") eid
      then MeshtasticChatMixin._add_to_history
             (dict_get data "from" (PStr "?"))
             (dict_get data "message" (PStr ""))
             (timestamp (time_fired event))
      else mret tt
  | None => mret tt
  end.

(** The [suggested_object_id] property. *)
Definition suggested_object_id (self : t) : string :=
  "meshtastic_direct_message_chat".

End Class_.
End MeshtasticDirectMessageText.

(** The entities of the platform are of either class. *)
Inductive TextEntity :=
| ChannelText (e : MeshtasticChannelText.t)
| DirectMessageText (e : MeshtasticDirectMessageText.t).

(** A method call on an entity runs the method of its class. *)
Definition dispatch {A} (mc : Py MeshtasticChannelText.t A)
    (md : Py MeshtasticDirectMessageText.t A) : Py TextEntity A :=
  fun self h =>
    match self with
    | ChannelText c =>
        let '(r, c', h') := mc c h in (r, ChannelText c', h')
    | DirectMessageText d =>
        let '(r, d', h') := md d h in (r, DirectMessageText d', h')
    end.

Definition _history (self : TextEntity) : list pydict :=
  match self with
  | ChannelText c => MeshtasticChannelText._history c
  | DirectMessageText d => MeshtasticDirectMessageText._history d
  end.

Definition _attr_native_value (self : TextEntity) : option string :=
  match self with
  | ChannelText c => MeshtasticChannelText._attr_native_value c
  | DirectMessageText d => MeshtasticDirectMessageText._attr_native_value d
  end.

Definition _attr_unique_id (self : TextEntity) : string :=
  match self with
  | ChannelText c => MeshtasticChannelText._attr_unique_id c
  | DirectMessageText d => MeshtasticDirectMessageText._attr_unique_id d
  end.

Definition _client (self : TextEntity) : ClientRef :=
  match self with
  | ChannelText c => MeshtasticChannelText._client c
  | DirectMessageText d => MeshtasticDirectMessageText._client d
  end.

Section Platform.
Context `{Imports}.

Definition async_set_value (value : string) : Py TextEntity unit :=
  dispatch (MeshtasticChannelText.async_set_value value)
           (MeshtasticDirectMessageText.async_set_value value).

Definition _on_meshtastic_event (event : Event) : Py TextEntity unit :=
  dispatch (MeshtasticChannelText._on_meshtastic_event event)
           (MeshtasticDirectMessageText._on_meshtastic_event event).

(** The frame of [async_setup_entry]: its local list [entities], and
    the lists the callback [async_add_entities] has received. *)
Record Frame := {
  entities : list TextEntity;
  added : list (list TextEntity)
}.

Definition set_entities (l : list TextEntity) (f : Frame) : Frame :=
  {| entities := l; added := added f |}.

Definition append (e : TextEntity) : Py Frame unit :=
  f ← get;
  put (set_entities (entities f ++ [e]) f).

Definition async_add_entities (l : list TextEntity) : Py Frame unit :=
  f ← get;
  put {| entities := entities f; added := added f ++ [l] |}.

Definition async_setup_entry (entry : ConfigEntry) : Py Frame unit :=
  let client := client (runtime_data entry) in
  gateway_node ← async_get_own_node client;
  channels ← async_get_channels client;
  f ← get;
  put (set_entities [] f);;
  for_ channels (fun channel =>
    if negb (String.eqb (role channel) "DISABLED") then
      e ← MeshtasticChannelText.__init__
             (entry_id entry)
             (num gateway_node)
             (index channel)
             (name (settings channel))
             (String.eqb (role channel) "PRIMARY")
             (String.eqb (role channel) "SECONDARY")
             client;
      append (ChannelText e)
    else mret tt);;
  e ← MeshtasticDirectMessageText.__init__
         (entry_id entry) (num gateway_node) client;
  append (DirectMessageText e);;
  f ← get;
  async_add_entities (entities f).

(** What happens to a chat entity after its construction: the user
    submits a text, or the bus delivers an event. An exception ends
    the operation, not the entity. *)
Inductive operation :=
| Submit (value : string)
| Deliver (event : Event).

Definition perform (o : operation) : Py TextEntity unit :=
  match o with
  | Submit value => async_set_value value
  | Deliver event => _on_meshtastic_event event
  end.

Fixpoint run (os : list operation) (self : TextEntity)
    (h : HomeAssistant) : TextEntity * HomeAssistant :=
  match os with
  | [] => (self, h)
  | o :: os' =>
      let '(_, self', h') := perform o self h in run os' self' h'
  end.

End Platform.

End text.

(** * Vocabulary of the properties *)

Import text.

(** The history after one more entry: the entry goes last, and the first
    one leaves when that makes more than fifty. *)
Definition capped (l : list pydict) : list pydict :=
  if (50 <? length l)%nat then drop 1 l else l.

(** The entry an event leaves in a history. *)
Definition entry_of (event : Event) : pydict :=
  MeshtasticChatMixin.entry
    (dict_get (data event) "from" (PStr "?"))
    (dict_get (data event) "message" (PStr ""))
    (timestamp (time_fired event)).

Definition with_history (l : list pydict) (self : TextEntity) : TextEntity :=
  match self with
  | ChannelText c => ChannelText (MeshtasticChannelText.set_history l c)
  | DirectMessageText d =>
      DirectMessageText (MeshtasticDirectMessageText.set_history l d)
  end.

Definition with_native_value (v : string) (self : TextEntity) : TextEntity :=
  match self with
  | ChannelText c => ChannelText (MeshtasticChannelText.set_native_value v c)
  | DirectMessageText d =>
      DirectMessageText (MeshtasticDirectMessageText.set_native_value v d)
  end.

(** What an entity publishes when it writes its state. *)
Definition shown (self : TextEntity) : StateWrite :=
  {| written_unique_id := _attr_unique_id self;
     written_state := _attr_native_value self;
     written_history := _history self |}.

(** The send call a submission of [value] makes on the client. *)
Definition sent (self : TextEntity) (value : string) : ClientCall :=
  match self with
  | ChannelText c =>
      {| method := "send_text";
         args := [PStr value];
         kwargs := [("channel_index", PInt (MeshtasticChannelText._index c))] |}
  | DirectMessageText _ =>
      {| method := "send_text"; args := [PStr value]; kwargs := [] |}
  end.

(** The reboot call with its single argument, the delay. *)
Definition reboot_5 : ClientCall :=
  {| method := "reboot"; args := [PInt 5]; kwargs := [] |}.

(** The client that never raises. *)
Definition reliable (c : Client) : Prop :=
  forall calls cl, raises c calls cl = false.

(** The transmission settings of a channel as an entity would carry
    them. *)
Definition settings_of (c : Channel) : pydict :=
  {[ "psk" := PStr (psk (settings c));
     "uplinkEnabled" := PBool (uplinkEnabled (settings c));
     "downlinkEnabled" := PBool (downlinkEnabled (settings c)) ]}.

(** The settings every channel chat entity is given. *)
Definition placeholder_settings : pydict :=
  {[ "psk" := PStr "";
     "uplinkEnabled" := PBool true;
     "downlinkEnabled" := PBool true ]}.

(** The entity [async_setup_entry] builds for a channel, and the one for
    direct messages, when the client answers. *)
Definition channel_text (own : OwnNode) (entry : ConfigEntry) (gw : OwnNode)
    (c : Channel) : MeshtasticChannelText.t :=
  {| MeshtasticChannelText.base :=
       {| GatewayChannelEntity.config_entry_id := entry_id entry;
          GatewayChannelEntity.gateway_node := num gw;
          GatewayChannelEntity.gateway_entity :=
            {| suggested_object_id := "gateway " +:+ short_name_of own |};
          GatewayChannelEntity._index := index c;
          GatewayChannelEntity.name := name (settings c);
          GatewayChannelEntity.settings := placeholder_settings;
          GatewayChannelEntity.primary := String.eqb (role c) "PRIMARY";
          GatewayChannelEntity.secondary := String.eqb (role c) "SECONDARY";
          GatewayChannelEntity.has_logbook := false |};
     MeshtasticChannelText._history := [];
     MeshtasticChannelText._client := client (runtime_data entry);
     MeshtasticChannelText._attr_name :=
       (if String.eqb (name (settings c)) "" then
          if String.eqb (role c) "PRIMARY" then "Primary"
          else if String.eqb (role c) "SECONDARY" then "Secondary"
          else "Channel " +:+ str (index c)
        else name (settings c)) +:+ " Chat";
     MeshtasticChannelText._attr_unique_id :=
       entry_id entry +:+ "_chat_channel_" +:+ str (num gw)
         +:+ "_" +:+ str (index c);
     MeshtasticChannelText._attr_native_value := None |}.

Definition direct_message_text (own : OwnNode) (entry : ConfigEntry)
    (gw : OwnNode) : MeshtasticDirectMessageText.t :=
  {| MeshtasticDirectMessageText.base :=
       {| GatewayDirectMessageEntity.config_entry_id := entry_id entry;
          GatewayDirectMessageEntity.gateway_node := num gw;
          GatewayDirectMessageEntity.gateway_entity :=
            {| suggested_object_id := "gateway " +:+ short_name_of own |};
          GatewayDirectMessageEntity.has_logbook := false |};
     MeshtasticDirectMessageText._history := [];
     MeshtasticDirectMessageText._client := client (runtime_data entry);
     MeshtasticDirectMessageText._attr_name := "Direct Message Chat";
     MeshtasticDirectMessageText._attr_unique_id :=
       entry_id entry +:+ "_chat_dm_" +:+ str (num gw);
     MeshtasticDirectMessageText._attr_native_value := None |}.

Definition set_up (h : HomeAssistant) (entry : ConfigEntry)
  : list TextEntity :=
  let own := own_node (clients h (client (runtime_data entry))) in
  (ChannelText ∘ channel_text own entry own
     <$> filter (fun c => role c <> "DISABLED")
           (channels (clients h (client (runtime_data entry)))))
  ++ [DirectMessageText (direct_message_text own entry own)].

(** Decimal digits; any character but the underscore. *)
Definition is_digit (c : ascii) : bool :=
  match digit_of c with Some _ => true | None => false end.

Definition not_underscore (c : ascii) : bool := negb (Ascii.eqb c "_").

Section Identity.
Context `{Imports}.

(** The unique id a handler derives from [_attr_unique_id], the one it
    asks the registry about. *)
Definition derived_unique_id (self : TextEntity) : result string :=
  let parts := split "_" (_attr_unique_id self) in
  match getitem parts 0, getitem parts 3 with
  | Return p0, Return p3 =>
      match int p3 with
      | Return node =>
          Return
            match self with
            | ChannelText c =>
                channel_build_unique_id p0 node
                  (MeshtasticChannelText._index c)
            | DirectMessageText _ => dm_build_unique_id p0 node
            end
      | Raise e => Raise e
      end
  | Raise e, _ => Raise e
  | _, Raise e => Raise e
  end.

(** The entity id the registry resolves for the entity, if any. *)
Definition resolved (self : TextEntity) (h : HomeAssistant)
  : option string :=
  match derived_unique_id self with
  | Return uid => entity_registry h !! (DOMAIN, DOMAIN, uid)
  | Raise _ => None
  end.

(** An event matches the identity of an entity when the registry
    resolves the derived unique id to a non-empty entity id and the
    event carries that entity id. *)
Definition matches (self : TextEntity) (h : HomeAssistant)
    (event : Event) : bool :=
  match resolved self h with
  | Some eid =>
      negb (String.eqb eid "")
      && eq_str (dict_get_none (data event) "entity_id") eid
  | None => false
  end.

(** The entities that exist: the ones a constructor returned, and what
    an operation makes of them. *)
Inductive reachable : TextEntity -> Prop :=
| reachable_channel config_entry_id gateway_node index name primary
    secondary client (s s' : unit) h h' e :
    MeshtasticChannelText.__init__ config_entry_id gateway_node index name
      primary secondary client s h = (Return e, s', h') ->
    reachable (ChannelText e)
| reachable_direct_message config_entry_id gateway_node client
    (s s' : unit) h h' e :
    MeshtasticDirectMessageText.__init__ config_entry_id gateway_node
      client s h = (Return e, s', h') ->
    reachable (DirectMessageText e)
| reachable_perform self o h :
    reachable self ->
    reachable (perform o self h).1.2.

End Identity.

(** ** Vocabulary of the further properties *)

(** Pressing buttons one after the other; an exception ends the press,
    not the sequence. *)
Fixpoint press_all (buttons : list button.MeshtasticNodeRebootButton.t)
    (h : HomeAssistant) : HomeAssistant :=
  match buttons with
  | [] => h
  | b :: buttons' =>
      press_all buttons' (button.MeshtasticNodeRebootButton.async_press b h).2
  end.

Definition get_own_node_call : ClientCall :=
  {| method := "get_own_node"; args := []; kwargs := [] |}.

Definition is_upper (c : ascii) : bool :=
  let n := nat_of_ascii c in ((65 <=? n) && (n <=? 90))%nat.

Definition not_space (c : ascii) : bool := negb (Ascii.eqb c " ").

(** The suggested object id of a chat entity. *)
Definition suggested_id (self : TextEntity) : string :=
  match self with
  | ChannelText c => MeshtasticChannelText.suggested_object_id c
  | DirectMessageText d => MeshtasticDirectMessageText.suggested_object_id d
  end.

Section Routing.
Context `{Imports}.

(** The entries of the events, among the operations, that match the
    entity, in order. *)
Fixpoint matching_entries (self : TextEntity) (h : HomeAssistant)
    (os : list operation) : list pydict :=
  match os with
  | [] => []
  | Submit _ :: os' => matching_entries self h os'
  | Deliver event :: os' =>
      if matches self h event
      then entry_of event :: matching_entries self h os'
      else matching_entries self h os'
  end.

End Routing.

(** * A sample configuration

    One entry, one client with a primary, a disabled and a secondary
    channel, and the two chat entities of the primary channel and of the
    direct messages. *)

Definition sample_imports : Imports := {|
  DOMAIN := "meshtastic";
  channel_build_unique_id := fun e n i =>
    e +:+ "_gateway_" +:+ str n +:+ "_channel_" +:+ str i;
  dm_build_unique_id := fun e n => e +:+ "_gateway_" +:+ str n +:+ "_dm";
  int_beyond_ascii := fun _ => Raise ValueError
|}.

Definition sample_primary : Channel :=
  {| index := 0; role := "PRIMARY";
     settings := {| name := ""; psk := "AQ=="; uplinkEnabled := false;
                    downlinkEnabled := false |} |}.

Definition sample_disabled : Channel :=
  {| index := 1; role := "DISABLED";
     settings := {| name := ""; psk := ""; uplinkEnabled := false;
                    downlinkEnabled := false |} |}.

Definition sample_secondary : Channel :=
  {| index := 2; role := "SECONDARY";
     settings := {| name := "Ops"; psk := "c2VjcmV0"; uplinkEnabled := false;
                    downlinkEnabled := true |} |}.

Definition sample_own_node : OwnNode :=
  {| num := 42; user := Some {| shortName := Some "GW" |} |}.

(** A client that answers, and one whose [send_text] raises. *)
Definition sample_client (failing : bool) : Client :=
  {| own_node := sample_own_node;
     channels := [sample_primary; sample_disabled; sample_secondary];
     raises := fun _ cl => failing && String.eqb (method cl) "send_text" |}.

Definition sample_hass (failing : bool) : HomeAssistant :=
  {| clients := fun _ => sample_client failing;
     client_calls := [];
     entity_registry :=
       {[ ("meshtastic", "meshtastic", "entry1_gateway_42_channel_0") :=
            "meshtastic.gateway_gw_channel_primary";
          ("meshtastic", "meshtastic", "entry1_gateway_42_dm") :=
            "meshtastic.gateway_gw_dm" ]};
     states := [];
     logged := [] |}.

Definition sample_entry : ConfigEntry :=
  {| entry_id := "entry1";
     runtime_data := {| coordinator := 0; client := 7%nat |} |}.

Definition sample_frame : Frame := {| entities := []; added := [] |}.

Definition sample_channel_chat : TextEntity :=
  ChannelText
    (channel_text sample_own_node sample_entry sample_own_node sample_primary).

Definition sample_dm_chat : TextEntity :=
  DirectMessageText
    (direct_message_text sample_own_node sample_entry sample_own_node).

(** The channel chat once a text was sent: its input value is assigned. *)
Definition used_channel_chat : TextEntity :=
  with_native_value "" sample_channel_chat.

(** An event for the primary channel, without the ["from"] key. *)
Definition sample_event (n : Z) : Event :=
  {| data := {[ "entity_id" := PStr "meshtastic.gateway_gw_channel_primary";
                "message" := PInt n ]};
     time_fired := {| timestamp := S754_finite false 1 0 |} |}.

(** An event for some other entity. *)
Definition stray_event : Event :=
  {| data := {[ "entity_id" := PStr "meshtastic.gateway_gw_channel_ops";
                "from" := PStr "!a1b2c3d4";
                "message" := PStr "hello" ]};
     time_fired := {| timestamp := S754_finite false 1 0 |} |}.

(** An entry whose id has an underscore, three nodes, and operations of
    every kind. *)
Definition sample_entry_underscore : ConfigEntry :=
  {| entry_id := "my_entry";
     runtime_data := {| coordinator := 0; client := 7%nat |} |}.

Definition sample_nodes : list (Z * pydict) :=
  [(42, ∅); (305419896, ∅); (7, ∅)].

(** An event that names no entity. *)
Definition bare_event : Event :=
  {| data := {[ "from" := PStr "!a1b2c3d4"; "message" := PStr "hello" ]};
     time_fired := {| timestamp := S754_zero false |} |}.

Definition sample_operations : list operation :=
  [Deliver (sample_event 1); Submit "hello"; Deliver stray_event;
   Deliver (sample_event 2); Submit ""; Deliver (sample_event 3)].

(** * Lemmas *)

(** Unfolding the monad. *)
Ltac py_unfold :=
  unfold mbind, mret, Py_bind, Py_ret, get, put, hass, lift, info,
    send_text, reboot, call,
    MeshtasticChatMixin.async_write_ha_state in *.

Lemma capped_length (l : list pydict) (x : pydict) :
  (length l <= 50)%nat -> (length (capped (l ++ [x])) <= 50)%nat.
Proof.
  intros Hl. unfold capped. rewrite length_app. simpl.
  destruct (Nat.ltb_spec 50 (length l + 1)) as [Hlt | Hge].
  - rewrite length_drop, length_app. simpl. lia.
  - rewrite length_app. simpl. lia.
Qed.

Lemma capped_window (l : list pydict) (x : pydict) :
  (length l <= 50)%nat ->
  capped (l ++ [x]) = drop (length (l ++ [x]) - 50) (l ++ [x]).
Proof.
  intros Hl. unfold capped. rewrite length_app. simpl.
  destruct (Nat.ltb_spec 50 (length l + 1)) as [Hlt | Hge].
  - replace (length l + 1 - 50)%nat with 1%nat by lia. reflexivity.
  - replace (length l + 1 - 50)%nat with 0%nat by lia. reflexivity.
Qed.

Lemma capped_last (l : list pydict) (x : pydict) :
  last (capped (l ++ [x])) = Some x.
Proof.
  unfold capped.
  destruct (Nat.ltb_spec 50 (length (l ++ [x]))) as [Hlt | Hge].
  - rewrite length_app in Hlt. simpl in Hlt.
    destruct l as [| y l]; [simpl in Hlt; lia |].
    simpl. rewrite drop_0. apply last_snoc.
  - apply last_snoc.
Qed.

(** Feeding entries one by one keeps the last fifty. *)
Lemma window_fold (es l : list pydict) :
  (length l <= 50)%nat ->
  fold_left (fun acc e => capped (acc ++ [e])) es l
  = drop (length (l ++ es) - 50) (l ++ es).
Proof.
  revert l. induction es as [| e es IH]; intros l Hl.
  - simpl. rewrite app_nil_r. replace (length l - 50)%nat with 0%nat by lia.
    reflexivity.
  - simpl fold_left. rewrite IH by (apply capped_length; exact Hl).
    rewrite capped_window by exact Hl.
    rewrite <- drop_app_le by (rewrite length_app; simpl; lia).
    rewrite drop_drop. rewrite <- (assoc_L (++) l [e] es). simpl.
    f_equal. rewrite length_drop, !length_app. simpl. lia.
Qed.

Ltac text_unfold :=
  unfold _on_meshtastic_event, async_set_value, dispatch,
    MeshtasticChannelText._on_meshtastic_event,
    MeshtasticDirectMessageText._on_meshtastic_event,
    MeshtasticChannelText.async_set_value,
    MeshtasticDirectMessageText.async_set_value,
    MeshtasticChatMixin._add_to_history in *;
  py_unfold.

Lemma on_event_spec `{Imports} (event : Event) (self : TextEntity)
    (h : HomeAssistant) :
  _on_meshtastic_event event self h =
  if matches self h event
  then
    let self' :=
      with_history (capped (_history self ++ [entry_of event])) self in
    match _attr_native_value self with
    | Some _ => (Return tt, self', with_state h (shown self'))
    | None => (Raise AttributeError, self', h)
    end
  else
    (match derived_unique_id self with
     | Raise e => Raise e
     | Return _ => Return tt
     end, self, h).
Proof.
  unfold matches, resolved, derived_unique_id, capped, entry_of.
  destruct self as [[b hs cl nm uid nv] | [b hs cl nm uid nv]];
    text_unfold; simpl.
  - destruct (getitem _ 0) as [p0 | e0]; [| reflexivity].
    destruct (getitem _ 3) as [p3 | e3]; [| reflexivity].
    destruct (int p3) as [node | e]; [| reflexivity].
    destruct (entity_registry h !! _) as [eid |]; [| reflexivity].
    destruct (negb (String.eqb eid "") && _); [| reflexivity].
    simpl. destruct (50 <? _)%nat; destruct nv; reflexivity.
  - destruct (getitem _ 0) as [p0 | e0]; [| reflexivity].
    destruct (getitem _ 3) as [p3 | e3]; [| reflexivity].
    destruct (int p3) as [node | e]; [| reflexivity].
    destruct (entity_registry h !! _) as [eid |]; [| reflexivity].
    destruct (negb (String.eqb eid "") && _); [| reflexivity].
    simpl. destruct (50 <? _)%nat; destruct nv; reflexivity.
Qed.

Lemma set_value_spec (value : string) (self : TextEntity)
    (h : HomeAssistant) :
  async_set_value value self h =
  let c := _client self in
  if raises (clients h c) (client_calls h) (sent self value)
  then (Raise (ClientError c (sent self value)), self,
        with_call h c (sent self value))
  else
    let self' := with_native_value "" self in
    (Return tt, self', with_state (with_call h c (sent self value))
                         (shown self')).
Proof.
  destruct self as [c | d]; text_unfold; simpl;
    destruct (raises _ _ _); reflexivity.
Qed.


Ltac setup_unfold :=
  unfold MeshtasticChannelText.__init__, MeshtasticDirectMessageText.__init__,
    get_own_node, async_get_own_node, async_get_channels, append,
    async_add_entities in *;
  py_unfold.

(** The loop of [async_setup_entry] over the channels. *)
Lemma setup_loop (entry : ConfigEntry) (gw : OwnNode) (cs : list Channel)
    (f : Frame) (h : HomeAssistant) :
  let c := client (runtime_data entry) in
  let '(r, f', h') :=
    for_ cs (fun channel =>
      if negb (String.eqb (role channel) "DISABLED") then
        e ← MeshtasticChannelText.__init__
               (entry_id entry) (num gw) (index channel)
               (name (settings channel))
               (String.eqb (role channel) "PRIMARY")
               (String.eqb (role channel) "SECONDARY")
               c;
        append (ChannelText e)
      else mret tt) f h in
  added f' = added f /\
  clients h' = clients h /\
  (r = Return tt ->
   entities f' =
   entities f ++
     (ChannelText ∘ channel_text (own_node (clients h c)) entry gw
        <$> filter (fun c => role c <> "DISABLED") cs)) /\
  (reliable (clients h c) -> r = Return tt).
Proof.
  simpl. revert f h. induction cs as [| ch cs IH]; intros f h.
  - simpl. unfold mret, Py_ret. rewrite app_nil_r. auto.
  - simpl for_. unfold mbind at 1. unfold Py_bind at 1.
    destruct (decide (role ch <> "DISABLED")) as [Hen | Hen].
    + rewrite filter_cons_True by exact Hen.
      apply String.eqb_neq in Hen. rewrite Hen. cbn [negb].
      setup_unfold. simpl.
      destruct (raises _ _ _) eqn:Hraise.
      * repeat split; try reflexivity; try discriminate.
        intros Hrel. rewrite Hrel in Hraise. discriminate.
      * match goal with
        | |- context [for_ cs ?b ?f0 ?h0] =>
            specialize (IH f0 h0); destruct (for_ cs b f0 h0) as [[r f'] h']
        end.
        simpl in IH. destruct IH as (Ha & Hc & He & Hr).
        repeat split; try assumption.
        -- intros Hret. rewrite (He Hret). simpl.
           rewrite <- (assoc_L (++)). reflexivity.
    + rewrite filter_cons_False by exact Hen.
      apply dec_stable, String.eqb_eq in Hen. rewrite Hen. cbn [negb].
      unfold mret at 1. unfold Py_ret at 1.
      specialize (IH f h).
      match goal with
      | |- context [for_ cs ?b f h] => destruct (for_ cs b f h) as [[r f'] h']
      end.
      exact IH.
Qed.

Ltac case_raises R :=
  lazymatch goal with
  | |- context [if raises ?a ?b ?c then _ else _] =>
      destruct (raises a b c) eqn:R
  end.

Ltac absurd_raise Hrel R :=
  intros Hrel; simpl in R; rewrite Hrel in R; discriminate.

Lemma setup_spec (entry : ConfigEntry) (f : Frame) (h : HomeAssistant) :
  let '(r, f', h') := async_setup_entry entry f h in
  (r = Return tt -> added f' = added f ++ [set_up h entry]) /\
  (r <> Return tt -> added f' = added f) /\
  (reliable (clients h (client (runtime_data entry))) -> r = Return tt).
Proof.
  unfold async_setup_entry, set_up.
  set (c := client (runtime_data entry)).
  unfold async_get_own_node at 1. unfold async_get_channels at 1.
  py_unfold.
  case_raises R1.
  { repeat split; try discriminate; try reflexivity. absurd_raise Hrel R1. }
  case_raises R2.
  { repeat split; try discriminate; try reflexivity. absurd_raise Hrel R2. }
  match goal with
  | |- context [for_ ?cs ?b ?f0 ?h0] =>
      pose proof (setup_loop entry (own_node (clients h c)) cs f0 h0) as L;
      cbv zeta in L;
      match type of L with
      | context [for_ cs ?b1 f0 h0] => change b1 with b in L
      end;
      destruct (for_ cs b f0 h0) as [[r f'] h']
  end.
  destruct L as (Ha & Hc & He & Hr). simpl in Hc, He, Hr. fold c in He, Hr.
  destruct r as [[] | e].
  - setup_unfold. rewrite Hc.
    case_raises R3.
    + split; [discriminate | split; [intros _; exact Ha |]].
      absurd_raise Hrel R3.
    + simpl. split; [| split; congruence].
      intros _. rewrite Ha, (He eq_refl). simpl. rewrite Hc. reflexivity.
  - split; [discriminate | split; [intros _; exact Ha | exact Hr]].
Qed.

Lemma matches_stable `{Imports} (self : TextEntity) (h : HomeAssistant)
    (l : list pydict) (w : StateWrite) (event : Event) :
  matches (with_history l self) (with_state h w) event = matches self h event.
Proof. destruct self; reflexivity. Qed.

Lemma matches_with_history `{Imports} (self : TextEntity)
    (h : HomeAssistant) (l : list pydict) (event : Event) :
  matches (with_history l self) h event = matches self h event.
Proof. destruct self; reflexivity. Qed.

Lemma history_with_history (l : list pydict) (self : TextEntity) :
  _history (with_history l self) = l.
Proof. destruct self; reflexivity. Qed.

(** The history after an event, whether the write that follows the
    append returns or raises. *)
Lemma on_event_history `{Imports} (event : Event) (self : TextEntity)
    (h : HomeAssistant) :
  _history (_on_meshtastic_event event self h).1.2 =
  if matches self h event
  then capped (_history self ++ [entry_of event])
  else _history self.
Proof.
  rewrite on_event_spec. destruct (matches self h event); [| reflexivity].
  cbv zeta. destruct (_attr_native_value self); simpl;
    apply history_with_history.
Qed.

Lemma history_with_native_value (v : string) (self : TextEntity) :
  _history (with_native_value v self) = _history self.
Proof. destruct self; reflexivity. Qed.

Lemma native_value_with_native_value (v : string) (self : TextEntity) :
  _attr_native_value (with_native_value v self) = Some v.
Proof. destruct self; reflexivity. Qed.

(** Delivering matching events feeds their entries to the history. *)
Lemma run_deliver `{Imports} (events : list Event) (self : TextEntity)
    (h : HomeAssistant) :
  Forall (fun event => matches self h event = true) events ->
  _history (run (Deliver <$> events) self h).1
  = fold_left (fun acc e => capped (acc ++ [e])) (entry_of <$> events)
      (_history self).
Proof.
  revert self h. induction events as [| event events IH]; intros self h Hall.
  - reflexivity.
  - inversion Hall as [| ? ? Hm Hrest]; subst.
    simpl. rewrite on_event_spec, Hm. cbv zeta.
    destruct (_attr_native_value self); simpl; rewrite IH.
    + rewrite history_with_history. reflexivity.
    + eapply Forall_impl; [exact Hrest |].
      intros ev Hev. simpl. rewrite matches_stable. exact Hev.
    + rewrite history_with_history. reflexivity.
    + eapply Forall_impl; [exact Hrest |].
      intros ev Hev. simpl. rewrite matches_with_history. exact Hev.
Qed.

Lemma perform_keeps_cap `{Imports} (o : operation) (self : TextEntity)
    (h : HomeAssistant) :
  (length (_history self) <= 50)%nat ->
  (length (_history (perform o self h).1.2) <= 50)%nat.
Proof.
  intros Hl. destruct o as [value | event]; simpl.
  - rewrite set_value_spec. cbv zeta. destruct (raises _ _ _); simpl.
    + exact Hl.
    + rewrite history_with_native_value. exact Hl.
  - rewrite on_event_spec. destruct (matches self h event); simpl.
    + destruct (_attr_native_value self); simpl;
        rewrite history_with_history; apply capped_length; exact Hl.
    + exact Hl.
Qed.

Lemma reachable_cap `{Imports} (self : TextEntity) :
  reachable self -> (length (_history self) <= 50)%nat.
Proof.
  induction 1 as [? ? ? ? ? ? c s s' h h' e Hinit
                 | ? ? c s s' h h' e Hinit
                 | self o h Hreach IH].
  - revert Hinit. setup_unfold. destruct (raises _ _ _); [discriminate |].
    intros [= <- _ _]. simpl. lia.
  - revert Hinit. setup_unfold. destruct (raises _ _ _); [discriminate |].
    intros [= <- _ _]. simpl. lia.
  - apply perform_keeps_cap. exact IH.
Qed.

Lemma run_reachable `{Imports} (os : list operation) (self : TextEntity)
    (h : HomeAssistant) :
  reachable self -> reachable (run os self h).1.
Proof.
  revert self h. induction os as [| o os IH]; intros self h Hr; [exact Hr |].
  simpl. pose proof (reachable_perform self o h Hr) as Hstep.
  destruct (perform o self h) as [[r self'] h']. apply IH. exact Hstep.
Qed.

Lemma sample_channel_chat_reachable :
  reachable (H := sample_imports) sample_channel_chat.
Proof.
  apply (reachable_channel "entry1" 42 0 "" true false 7%nat tt tt
           (sample_hass false)
           (with_call (sample_hass false) 7%nat
              {| method := "get_own_node"; args := []; kwargs := [] |})).
  reflexivity.
Qed.

(** ** The unique id a handler derives *)

Lemma digit_of_pretty_N_char (d : N) :
  (d < 10)%N -> digit_of (pretty_N_char d) = Some (Z.of_N d).
Proof.
  intros Hd.
  assert (d = 0 \/ d = 1 \/ d = 2 \/ d = 3 \/ d = 4 \/ d = 5 \/ d = 6
          \/ d = 7 \/ d = 8 \/ d = 9)%N as Hcases by lia.
  repeat (destruct Hcases as [-> | Hcases]; [reflexivity |]).
  subst. reflexivity.
Qed.

Lemma digits_pretty_N_go (x : N) (s : string) :
  digits 0 (pretty_N_go x s) = digits (Z.of_N x) s.
Proof.
  revert s. induction (N.lt_wf_0 x) as [x _ IH]; intros s.
  destruct (decide (x = 0%N)) as [-> | Hx].
  - reflexivity.
  - rewrite pretty_N_go_step by lia.
    rewrite IH by (apply N.div_lt; lia).
    simpl. rewrite digit_of_pretty_N_char by (apply N.mod_lt; lia).
    f_equal. rewrite (N.div_mod x 10) at 3 by lia. lia.
Qed.

Lemma every_pretty_N_go (p : ascii -> bool) (x : N) (s : string) :
  (forall d, (d < 10)%N -> p (pretty_N_char d) = true) ->
  every p s = true -> every p (pretty_N_go x s) = true.
Proof.
  intros Hp. revert s. induction (N.lt_wf_0 x) as [x _ IH]; intros s Hs.
  destruct (decide (x = 0%N)) as [-> | Hx].
  - exact Hs.
  - rewrite pretty_N_go_step by lia. apply IH; [apply N.div_lt; lia |].
    simpl. rewrite Hp by (apply N.mod_lt; lia). exact Hs.
Qed.

Lemma pretty_N_go_nonempty (x : N) (s : string) :
  s <> "" -> pretty_N_go x s <> "".
Proof.
  revert s. induction (N.lt_wf_0 x) as [x _ IH]; intros s Hs.
  destruct (decide (x = 0%N)) as [-> | Hx].
  - exact Hs.
  - rewrite pretty_N_go_step by lia. apply IH; [apply N.div_lt; lia |].
    discriminate.
Qed.

Lemma every_impl (p q : ascii -> bool) (s : string) :
  (forall c, p c = true -> q c = true) -> every p s = true ->
  every q s = true.
Proof.
  intros Hpq. induction s as [| c s IH]; [reflexivity |]. simpl.
  intros [Hc Hs]%andb_prop. rewrite (Hpq c Hc). simpl. apply IH. exact Hs.
Qed.

Lemma lstrip_plain (s : string) :
  every (fun c => negb (is_space c)) s = true -> lstrip s = s.
Proof.
  destruct s as [| c s]; [reflexivity |]. simpl.
  intros [Hc _]%andb_prop. apply negb_true_iff in Hc. rewrite Hc. reflexivity.
Qed.

Lemma rstrip_plain (s : string) :
  every (fun c => negb (is_space c)) s = true -> rstrip s = s.
Proof.
  induction s as [| c s IH]; [reflexivity |]. simpl.
  intros [Hc Hs]%andb_prop. apply negb_true_iff in Hc.
  rewrite (IH Hs), Hc. destruct s; reflexivity.
Qed.

Lemma is_digit_not_space (c : ascii) :
  is_digit c = true -> negb (is_space c) = true.
Proof.
  unfold is_digit, digit_of, is_space.
  destruct (48 <=? nat_of_ascii c)%nat eqn:H1; [| discriminate].
  destruct (nat_of_ascii c <=? 57)%nat eqn:H2; [| discriminate].
  intros _. apply Nat.leb_le in H1, H2. apply negb_true_iff.
  apply orb_false_iff. split.
  - apply andb_false_iff. right. apply Nat.leb_gt. lia.
  - apply Nat.eqb_neq. lia.
Qed.

Lemma is_digit_not_underscore (c : ascii) :
  is_digit c = true -> not_underscore c = true.
Proof.
  unfold not_underscore. destruct (Ascii.eqb_spec c "_") as [-> | _];
    [discriminate | reflexivity].
Qed.

Lemma is_digit_not_sign (c : ascii) :
  is_digit c = true -> Ascii.eqb c "-" = false /\ Ascii.eqb c "+" = false.
Proof.
  intros Hc. split.
  - destruct (Ascii.eqb_spec c "-") as [-> | _]; [discriminate | reflexivity].
  - destruct (Ascii.eqb_spec c "+") as [-> | _]; [discriminate | reflexivity].
Qed.

Lemma is_digit_pretty_N_char (d : N) :
  (d < 10)%N -> is_digit (pretty_N_char d) = true.
Proof.
  intros Hd. unfold is_digit. rewrite digit_of_pretty_N_char by exact Hd.
  reflexivity.
Qed.

(** The decimal representation of a positive number: digits, at least
    one, that read back as the number. *)
Lemma pretty_positive_digits (p : positive) :
  exists c s,
    pretty p = String c s /\
    every is_digit (String c s) = true /\
    digits 0 (String c s) = Some (Z.pos p).
Proof.
  unfold pretty, pretty_positive, pretty, pretty_N.
  rewrite decide_False by discriminate.
  destruct (pretty_N_go (N.pos p) "") as [| c s] eqn:Hgo.
  - exfalso. revert Hgo. rewrite pretty_N_go_step by lia.
    apply pretty_N_go_nonempty. discriminate.
  - exists c, s. split; [reflexivity |]. rewrite <- Hgo. split.
    + apply every_pretty_N_go; [apply is_digit_pretty_N_char | reflexivity].
    + rewrite digits_pretty_N_go. reflexivity.
Qed.

Lemma is_digit_ascii (c : ascii) : is_digit c = true -> is_ascii c = true.
Proof.
  unfold is_digit, digit_of, is_ascii.
  destruct (48 <=? nat_of_ascii c)%nat eqn:H1; [| discriminate].
  destruct (nat_of_ascii c <=? 57)%nat eqn:H2; [| discriminate].
  intros _. apply Nat.leb_le in H2. apply Nat.ltb_lt. lia.
Qed.

Lemma every_str (p : ascii -> bool) (z : Z) :
  (forall c, is_digit c = true -> p c = true) -> p "-"%char = true ->
  every p (str z) = true.
Proof.
  intros Hdigit Hminus. unfold str, pretty, pretty_Z.
  destruct z as [| q | q].
  - simpl. rewrite Hdigit by reflexivity. reflexivity.
  - destruct (pretty_positive_digits q) as (c & s & -> & Hd & _).
    eapply every_impl; [exact Hdigit | exact Hd].
  - destruct (pretty_positive_digits q) as (c & s & -> & Hd & _).
    change (every p ("-" +:+ String c s))
      with (p "-"%char && every p (String c s)).
    rewrite Hminus. eapply every_impl; [exact Hdigit | exact Hd].
Qed.

Lemma unsigned_digits (c : ascii) (s : string) (z : Z) :
  is_digit c = true -> digits 0 (String c s) = Some z ->
  unsigned (String c s) = Return z.
Proof.
  unfold is_digit, unsigned. simpl.
  destruct (digit_of c) as [d |]; [| discriminate].
  intros _ Hv. replace (10 * 0 + d) with d in Hv by lia.
  rewrite Hv. reflexivity.
Qed.

Lemma int_ascii_str (z : Z) : int_ascii (str z) = Return z.
Proof.
  unfold str, pretty, pretty_Z. destruct z as [| p | p].
  - reflexivity.
  - destruct (pretty_positive_digits p) as (c & s & -> & Hd & Hv).
    unfold int_ascii.
    rewrite lstrip_plain, rstrip_plain
      by (eapply every_impl; [apply is_digit_not_space | exact Hd]).
    simpl in Hd. apply andb_prop in Hd as [Hc _].
    destruct (is_digit_not_sign c Hc) as [-> ->].
    apply unsigned_digits; assumption.
  - destruct (pretty_positive_digits p) as (c & s & -> & Hd & Hv).
    unfold int_ascii.
    assert (Hplain : every (fun c => negb (is_space c))
                       (String "-" (String c s)) = true).
    { change (every _ (String "-" (String c s)))
        with (every (fun c => negb (is_space c)) (String c s)).
      eapply every_impl; [apply is_digit_not_space | exact Hd]. }
    rewrite lstrip_plain, rstrip_plain by exact Hplain.
    change ("-" +:+ String c s) with (String "-" (String c s)).
    cbv iota. change (Ascii.eqb "-" "-") with true. cbv iota.
    simpl in Hd. apply andb_prop in Hd as [Hc _].
    rewrite (unsigned_digits c s (Z.pos p) Hc Hv). reflexivity.
Qed.

Lemma int_str `{Imports} (z : Z) : int (str z) = Return z.
Proof.
  unfold int.
  rewrite (every_str is_ascii z is_digit_ascii eq_refl).
  apply int_ascii_str.
Qed.

Lemma str_not_underscore (z : Z) : every not_underscore (str z) = true.
Proof.
  unfold str, pretty, pretty_Z. destruct z as [| p | p].
  - reflexivity.
  - destruct (pretty_positive_digits p) as (c & s & -> & Hd & _).
    eapply every_impl; [apply is_digit_not_underscore | exact Hd].
  - destruct (pretty_positive_digits p) as (c & s & -> & Hd & _).
    change (every not_underscore ("-" +:+ String c s))
      with (every not_underscore (String c s)).
    eapply every_impl; [apply is_digit_not_underscore | exact Hd].
Qed.

Lemma split_plain (s : string) :
  every not_underscore s = true -> split "_" s = [s].
Proof.
  induction s as [| c s IH]; [reflexivity |]. simpl.
  intros [Hc Hs]%andb_prop. unfold not_underscore in Hc.
  apply negb_true_iff in Hc. rewrite Hc, (IH Hs). reflexivity.
Qed.

Lemma split_app (a b : string) :
  every not_underscore a = true ->
  split "_" (a +:+ String "_" b) = a :: split "_" b.
Proof.
  induction a as [| c a IH]; [reflexivity |]. simpl.
  intros [Hc Ha]%andb_prop. unfold not_underscore in Hc.
  apply negb_true_iff in Hc. rewrite Hc, (IH Ha). reflexivity.
Qed.

Lemma split_channel_unique_id (e : string) (n i : Z) :
  every not_underscore e = true ->
  split "_" (e +:+ "_chat_channel_" +:+ str n +:+ "_" +:+ str i)
  = [e; "chat"; "channel"; str n; str i].
Proof.
  intros He.
  change (e +:+ "_chat_channel_" +:+ str n +:+ "_" +:+ str i)
    with (e +:+ String "_" ("chat" +:+ String "_" ("channel" +:+
            String "_" (str n +:+ String "_" (str i))))).
  rewrite (split_app e) by exact He.
  rewrite (split_app "chat") by reflexivity.
  rewrite (split_app "channel") by reflexivity.
  rewrite (split_app (str n)) by apply str_not_underscore.
  rewrite split_plain by apply str_not_underscore.
  reflexivity.
Qed.

Lemma split_dm_unique_id (e : string) (n : Z) :
  every not_underscore e = true ->
  split "_" (e +:+ "_chat_dm_" +:+ str n) = [e; "chat"; "dm"; str n].
Proof.
  intros He.
  change (e +:+ "_chat_dm_" +:+ str n)
    with (e +:+ String "_" ("chat" +:+ String "_" ("dm" +:+
            String "_" (str n)))).
  rewrite (split_app e) by exact He.
  rewrite (split_app "chat") by reflexivity.
  rewrite (split_app "dm") by reflexivity.
  rewrite split_plain by apply str_not_underscore.
  reflexivity.
Qed.

(** X6. For an entity as its constructor builds it, on a config entry id
    without underscore, the handler derives the unique id of the gateway
    entity of the same entry, gateway node and channel: the unique id the
    constructor formats is read back by the handler. *)
Lemma derived_unique_id_constructed `{Imports} (own gw : OwnNode)
    (entry : ConfigEntry) (c : Channel) :
  every not_underscore (entry_id entry) = true ->
  derived_unique_id (ChannelText (channel_text own entry gw c))
  = Return (channel_build_unique_id (entry_id entry) (num gw) (index c)) /\
  derived_unique_id (DirectMessageText (direct_message_text own entry gw))
  = Return (dm_build_unique_id (entry_id entry) (num gw)).
Proof.
  intros He. unfold derived_unique_id. simpl _attr_unique_id.
  rewrite split_channel_unique_id, split_dm_unique_id by exact He.
  unfold getitem. simpl lookup. cbv iota beta. rewrite int_str.
  split; reflexivity.
Qed.

(** The ways an event fails to match. *)
Lemma unresolved_never_matches `{Imports} (self : TextEntity)
    (h : HomeAssistant) (event : Event) :
  resolved self h = None -> matches self h event = false.
Proof. unfold matches. intros ->. reflexivity. Qed.

Lemma other_entity_id_never_matches `{Imports} (self : TextEntity)
    (h : HomeAssistant) (event : Event) (eid : string) :
  resolved self h = Some eid ->
  data event !! "entity_id" <> Some (PStr eid) ->
  matches self h event = false.
Proof.
  unfold matches, dict_get_none, dict_get. intros -> Hne.
  apply andb_false_iff. right.
  destruct (data event !! "entity_id") as [[| | | | s | |] |]; try reflexivity.
  simpl. apply String.eqb_neq. congruence.
Qed.

(** One button per node, in the order of the nodes, all on the client of
    the entry. *)
Lemma build_buttons_one_per_node (nodes : list (Z * pydict))
    (runtime_data : RuntimeData) (h : HomeAssistant) :
  reliable (clients h (client runtime_data)) ->
  (button._build_buttons nodes runtime_data tt h).1.1 =
  Return
    ((fun node_id =>
        button.MeshtasticNodeRebootButton.__init__
          (coordinator runtime_data)
          {| button.key := "reboot"; button.name := "Reboot";
             button.icon := "mdi:restart" |}
          (own_node (clients h (client runtime_data))) node_id
          (client runtime_data)) <$> nodes.*1).
Proof.
  intros Hrel. unfold button._build_buttons, get_own_node. py_unfold. simpl.
  rewrite Hrel. reflexivity.
Qed.

(** * Theorems *)

(** ** Reboot button *)

(** C1. A press of the reboot button constructed for node [n] with a
    client makes exactly one call on the client, whether it returns or
    raises: [reboot] with the one argument 5, on the client the button was
    constructed with, and the press is logged for node [n]. *)
Theorem async_press_reboots_once (coordinator : nat)
    (description : button.ButtonEntityDescription) (gateway : OwnNode)
    (n : Z) (c : ClientRef) (h : HomeAssistant) :
  let '(_, self', h') :=
    button.MeshtasticNodeRebootButton.async_press
      (button.MeshtasticNodeRebootButton.__init__ coordinator description
         gateway n c) h in
  client_calls h' =
  client_calls h
    ++ [(c, {| method := "reboot"; args := [PInt 5]; kwargs := [] |})] /\
  logged h' = logged h ++ [("Rebooting node %s", [PInt n])] /\
  button.MeshtasticNodeRebootButton._node_id self' = n /\
  button.MeshtasticNodeRebootButton._client self' = c.
Proof.
  unfold button.MeshtasticNodeRebootButton.async_press. py_unfold. simpl.
  destruct (raises _ _ _); simpl; auto.
Qed.

(** The request is the same whatever the node: the node id appears in
    the log line only. *)
Lemma async_press_request_ignores_node (coordinator : nat)
    (description : button.ButtonEntityDescription) (gateway : OwnNode)
    (n1 n2 : Z) (c : ClientRef) (h : HomeAssistant) :
  let press n :=
    (button.MeshtasticNodeRebootButton.async_press
       (button.MeshtasticNodeRebootButton.__init__ coordinator description
          gateway n c) h).2 in
  client_calls (press n1) = client_calls h ++ [(c, reboot_5)] /\
  client_calls (press n2) = client_calls (press n1) /\
  logged (press n1) = logged h ++ [("Rebooting node %s", [PInt n1])].
Proof.
  unfold button.MeshtasticNodeRebootButton.async_press. py_unfold. simpl.
  destruct (raises _ _ _); simpl; auto.
Qed.

(** C9. Pressing a reboot button leaves every field of the button as it
    was, whether the client returns or raises; the client receives the
    one call and nothing else. *)
Theorem async_press_leaves_button_unchanged
    (self : button.MeshtasticNodeRebootButton.t) (h : HomeAssistant) :
  let '(_, self', h') :=
    button.MeshtasticNodeRebootButton.async_press self h in
  self' = self /\
  client_calls h' =
  client_calls h
    ++ [(button.MeshtasticNodeRebootButton._client self, reboot_5)].
Proof.
  unfold button.MeshtasticNodeRebootButton.async_press. py_unfold. simpl.
  destruct (raises _ _ _); simpl; auto.
Qed.

(** ** Text submission *)

(** C2, as stated, fails: when the client's send raises, the input value
    of a fresh entity is still unset. *)
Lemma submission_keeps_value_when_send_fails :
  ~ (forall (self : TextEntity) (value : string) (h : HomeAssistant),
       value <> "" ->
       _attr_native_value (async_set_value value self h).1.2 = Some "").
Proof.
  intros Hclaim.
  specialize (Hclaim sample_channel_chat "hello" (sample_hass true)).
  assert (Hne : "hello" <> "") by discriminate.
  specialize (Hclaim Hne). vm_compute in Hclaim. discriminate.
Qed.

(** C2, amended. When the client's send returns, the submission returns,
    the input value is the empty string and that is the state written;
    when the send raises, the exception propagates and the entity and the
    written states are as before. *)
Theorem async_set_value_outcome (self : TextEntity) (value : string)
    (h : HomeAssistant) :
  let '(r, self', h') := async_set_value value self h in
  if raises (clients h (_client self)) (client_calls h) (sent self value)
  then
    r = Raise (ClientError (_client self) (sent self value)) /\
    self' = self /\
    states h' = states h
  else
    r = Return tt /\
    _attr_native_value self' = Some "" /\
    written_state <$> last (states h') = Some (Some "").
Proof.
  rewrite set_value_spec. cbv zeta.
  destruct (raises _ _ _).
  - auto.
  - split; [reflexivity |]. split.
    + apply native_value_with_native_value.
    + simpl. rewrite last_snoc. simpl.
      rewrite native_value_with_native_value. reflexivity.
Qed.

(** C7. A submission makes exactly one call on the client, whether it
    returns or raises: a channel chat sends the text with its own channel
    index as the keyword argument [channel_index], the direct-message chat
    sends the text alone. *)
Theorem submission_sends_once (value : string) (h : HomeAssistant) :
  (forall c : MeshtasticChannelText.t,
     client_calls (async_set_value value (ChannelText c) h).2 =
     client_calls h ++
       [(MeshtasticChannelText._client c,
         {| method := "send_text";
            args := [PStr value];
            kwargs :=
              [("channel_index", PInt (MeshtasticChannelText._index c))] |})])
  /\
  (forall d : MeshtasticDirectMessageText.t,
     client_calls (async_set_value value (DirectMessageText d) h).2 =
     client_calls h ++
       [(MeshtasticDirectMessageText._client d,
         {| method := "send_text"; args := [PStr value]; kwargs := [] |})]).
Proof.
  split; intros e; rewrite set_value_spec; cbv zeta;
    destruct (raises _ _ _); reflexivity.
Qed.

(** ** History *)

(** C3. From an empty history, after [N] events that match the entity,
    the history has [min N 50] entries: one for each of the last
    [min N 50] events, in order of arrival, holding under ["from"] the
    sender of the event (["?"] without one), under ["message"] its text
    ([""] without one) and under ["timestamp"] the time it was fired, and
    nothing else. *)
Theorem history_keeps_last_fifty `{Imports} (self : TextEntity)
    (h : HomeAssistant) (events : list Event) :
  _history self = [] ->
  Forall (fun event => matches self h event = true) events ->
  let self' := (run (Deliver <$> events) self h).1 in
  length (_history self') = Nat.min (length events) 50 /\
  _history self' =
  drop (length events - 50)
    ((fun event =>
        ({[ "from" := default (PStr "?") (data event !! "from");
            "message" := default (PStr "") (data event !! "message");
            "timestamp" := PFloat (timestamp (time_fired event)) ]}
         : pydict)) <$> events).
Proof.
  intros Hempty Hall. cbv zeta.
  rewrite (run_deliver events self h Hall), Hempty.
  rewrite window_fold by (simpl; lia). simpl.
  rewrite length_fmap. split; [| reflexivity].
  rewrite length_drop, length_fmap. lia.
Qed.

Lemma history_keeps_last_fifty_witness :
  let events := sample_event <$> seqZ 0 53 in
  let self' :=
    (run (H := sample_imports) (Deliver <$> events) sample_channel_chat
       (sample_hass false)).1 in
  _history sample_channel_chat = [] /\
  Forall (fun event =>
            matches (H := sample_imports) sample_channel_chat
              (sample_hass false) event = true) events /\
  length (_history self') = 50%nat /\
  _history self' =
  (fun n => ({[ "from" := PStr "?";
                "message" := PInt n;
                "timestamp" := PFloat (S754_finite false 1 0) ]} : pydict))
    <$> seqZ 3 50.
Proof.
  assert (Hall : Forall (fun event =>
                   matches (H := sample_imports) sample_channel_chat
                     (sample_hass false) event = true)
                   (sample_event <$> seqZ 0 53)).
  { apply Forall_fmap, Forall_forall. intros n _. reflexivity. }
  split; [reflexivity |]. split; [exact Hall |].
  exact (history_keeps_last_fifty (H := sample_imports) sample_channel_chat
           (sample_hass false) (sample_event <$> seqZ 0 53) eq_refl Hall).
Defined.

(** C4. An entity never holds more than fifty entries, from its
    construction on and after every submission and every event; a matching
    event puts its entry last, and when the history is full the entry that
    leaves is the first one, whatever the entries are. *)
Theorem history_never_exceeds_fifty `{Imports} (self : TextEntity) :
  reachable self ->
  (length (_history self) <= 50)%nat /\
  forall (h : HomeAssistant) (event : Event),
    matches self h event = true ->
    _history (_on_meshtastic_event event self h).1.2 =
    (if (length (_history self) =? 50)%nat
     then drop 1 (_history self)
     else _history self) ++ [entry_of event].
Proof.
  intros Hreach. pose proof (reachable_cap self Hreach) as Hcap.
  split; [exact Hcap |].
  intros h event Hm. rewrite on_event_history, Hm.
  unfold capped. rewrite length_app. simpl.
  destruct (Nat.eqb_spec (length (_history self)) 50) as [Hfull | Hroom].
  - replace (50 <? length (_history self) + 1)%nat with true
      by (symmetry; apply Nat.ltb_lt; lia).
    destruct (_history self) as [| x l]; [simpl in Hfull; lia |].
    reflexivity.
  - replace (50 <? length (_history self) + 1)%nat with false
      by (symmetry; apply Nat.ltb_ge; lia).
    reflexivity.
Qed.

Lemma history_never_exceeds_fifty_witness :
  let self :=
    (run (H := sample_imports) (Deliver <$> (sample_event <$> seqZ 0 50))
       sample_channel_chat (sample_hass false)).1 in
  reachable (H := sample_imports) self /\
  (length (_history self) <= 50)%nat /\
  _history
    (_on_meshtastic_event (H := sample_imports) (sample_event 50) self
       (sample_hass false)).1.2 =
  drop 1 (_history self) ++ [entry_of (sample_event 50)].
Proof.
  cbv zeta.
  pose proof (run_reachable (H := sample_imports)
                (Deliver <$> (sample_event <$> seqZ 0 50))
                sample_channel_chat (sample_hass false)
                sample_channel_chat_reachable) as Hreach.
  split; [exact Hreach |].
  destruct (history_never_exceeds_fifty (H := sample_imports) _ Hreach)
    as [Hcap Hfifo].
  split; [exact Hcap |].
  apply (Hfifo (sample_hass false) (sample_event 50)). reflexivity.
Defined.

(** ** Setup *)

(** C6. When the client answers, setup returns and hands
    [async_add_entities] one list: a channel chat for each channel whose
    role is not ["DISABLED"], in the order of the channels, and none for a
    ["DISABLED"] one, then the direct-message chat. When a client call
    raises, nothing is handed over. *)
Theorem setup_creates_enabled_channels (entry : ConfigEntry) (f : Frame)
    (h : HomeAssistant) :
  let c := clients h (client (runtime_data entry)) in
  let '(r, f', _) := async_setup_entry entry f h in
  (reliable c -> r = Return tt) /\
  (r = Return tt ->
   added f' =
   added f ++
     [(ChannelText ∘ channel_text (own_node c) entry (own_node c)
         <$> filter (fun ch => role ch <> "DISABLED") (channels c))
      ++ [DirectMessageText
            (direct_message_text (own_node c) entry (own_node c))]]) /\
  (r <> Return tt -> added f' = added f).
Proof.
  cbv zeta. pose proof (setup_spec entry f h) as Hspec.
  destruct (async_setup_entry entry f h) as [[r f'] h'].
  destruct Hspec as (Hret & Hraise & Hrel).
  split; [exact Hrel |]. split; [| exact Hraise].
  intros Hr. rewrite (Hret Hr). reflexivity.
Qed.

Lemma setup_creates_enabled_channels_witness :
  let c := sample_client false in
  let '(r, f', _) :=
    async_setup_entry sample_entry sample_frame (sample_hass false) in
  reliable c /\
  r = Return tt /\
  added f' =
  [[ChannelText
      (channel_text sample_own_node sample_entry sample_own_node
         sample_primary);
    ChannelText
      (channel_text sample_own_node sample_entry sample_own_node
         sample_secondary);
    sample_dm_chat]].
Proof.
  pose proof (setup_creates_enabled_channels sample_entry sample_frame
                (sample_hass false)) as Hsetup.
  cbv zeta in *.
  destruct (async_setup_entry sample_entry sample_frame (sample_hass false))
    as [[r f'] h'].
  destruct Hsetup as (Hrel & Hret & _).
  assert (Hc : reliable (sample_client false))
    by (intros calls cl; reflexivity).
  split; [exact Hc |]. split; [exact (Hrel Hc) |].
  exact (Hret (Hrel Hc)).
Defined.

(** C5, as stated, fails: the chat entity set up for a channel whose
    pre-shared key is ["c2VjcmV0"] and whose uplink is disabled carries an
    empty key and an enabled uplink. *)
Lemma setup_does_not_carry_channel_settings :
  ~ (forall (entry : ConfigEntry) (f : Frame) (h : HomeAssistant)
       (l : list TextEntity) (ch : Channel) (e : MeshtasticChannelText.t),
       let '(r, f', _) := async_setup_entry entry f h in
       r = Return tt ->
       last (added f') = Some l ->
       ch ∈ channels (clients h (client (runtime_data entry))) ->
       ChannelText e ∈ l ->
       MeshtasticChannelText._index e = index ch ->
       GatewayChannelEntity.settings (MeshtasticChannelText.base e)
       = settings_of ch).
Proof.
  intros Hclaim.
  specialize (Hclaim sample_entry sample_frame (sample_hass false)
                (set_up (sample_hass false) sample_entry) sample_secondary
                (channel_text sample_own_node sample_entry sample_own_node
                   sample_secondary)).
  assert (Hpsk :
    GatewayChannelEntity.settings
      (MeshtasticChannelText.base
         (channel_text sample_own_node sample_entry sample_own_node
            sample_secondary)) !! "psk"
    = settings_of sample_secondary !! "psk").
  { f_equal. apply Hclaim.
    - reflexivity.
    - reflexivity.
    - simpl. set_solver.
    - apply list_elem_of_In. vm_compute. tauto.
    - reflexivity. }
  vm_compute in Hpsk. discriminate.
Qed.

(** C5, amended. Every channel chat entity that setup hands over carries
    the same settings, an empty pre-shared key with uplink and downlink
    enabled, whatever the settings of its channel are. *)
Theorem setup_gives_placeholder_settings (entry : ConfigEntry) (f : Frame)
    (h : HomeAssistant) (l : list TextEntity)
    (e : MeshtasticChannelText.t) :
  let '(r, f', _) := async_setup_entry entry f h in
  r = Return tt ->
  last (added f') = Some l ->
  ChannelText e ∈ l ->
  GatewayChannelEntity.settings (MeshtasticChannelText.base e)
  = {[ "psk" := PStr "";
       "uplinkEnabled" := PBool true;
       "downlinkEnabled" := PBool true ]}.
Proof.
  pose proof (setup_spec entry f h) as Hspec.
  destruct (async_setup_entry entry f h) as [[r f'] h'].
  destruct Hspec as (Hret & _ & _).
  intros Hr Hlast Hin. rewrite (Hret Hr), last_snoc in Hlast.
  injection Hlast as <-. unfold set_up in Hin.
  apply elem_of_app in Hin as [Hin | Hin].
  - apply list_elem_of_fmap in Hin as (ch & Heq & _).
    simpl in Heq. injection Heq as ->. reflexivity.
  - apply list_elem_of_singleton in Hin. discriminate.
Qed.

Lemma setup_gives_placeholder_settings_witness :
  let e :=
    channel_text sample_own_node sample_entry sample_own_node
      sample_secondary in
  let l := set_up (sample_hass false) sample_entry in
  (async_setup_entry sample_entry sample_frame (sample_hass false)).1.1
  = Return tt /\
  last (added (async_setup_entry sample_entry sample_frame
                 (sample_hass false)).1.2) = Some l /\
  ChannelText e ∈ l /\
  GatewayChannelEntity.settings (MeshtasticChannelText.base e)
  = {[ "psk" := PStr "";
       "uplinkEnabled" := PBool true;
       "downlinkEnabled" := PBool true ]}.
Proof.
  cbv zeta.
  assert (Hin :
    ChannelText
      (channel_text sample_own_node sample_entry sample_own_node
         sample_secondary) ∈ set_up (sample_hass false) sample_entry).
  { apply list_elem_of_In. vm_compute. tauto. }
  split; [reflexivity |]. split; [reflexivity |]. split; [exact Hin |].
  exact (setup_gives_placeholder_settings sample_entry sample_frame
           (sample_hass false) _ _ eq_refl eq_refl Hin).
Defined.

(** ** Events *)

(** C8. An event that does not match the entity, be it that the registry
    resolves no entity id for the entity, that the resolved id is empty, or
    that the event carries another entity id, leaves the entity, its
    history included, as it was, and no state is written. *)
Theorem unmatched_event_leaves_history `{Imports} (self : TextEntity)
    (h : HomeAssistant) (event : Event) :
  matches self h event = false ->
  let '(_, self', h') := _on_meshtastic_event event self h in
  _history self' = _history self /\ self' = self /\ h' = h.
Proof.
  intros Hm. rewrite on_event_spec, Hm. auto.
Qed.

Lemma unmatched_event_leaves_history_witness :
  matches (H := sample_imports) sample_channel_chat (sample_hass false)
    stray_event = false /\
  matches (H := sample_imports) sample_dm_chat (sample_hass false)
    (sample_event 1) = false /\
  let '(_, self', h') :=
    _on_meshtastic_event (H := sample_imports) stray_event
      sample_channel_chat (sample_hass false) in
  _history self' = _history sample_channel_chat /\
  self' = sample_channel_chat /\ h' = sample_hass false.
Proof.
  split; [reflexivity |]. split; [reflexivity |].
  exact (unmatched_event_leaves_history (H := sample_imports)
           sample_channel_chat (sample_hass false) stray_event eq_refl).
Defined.

(** C10. An event that matches the entity is appended: its entry is the
    last of the history, whatever becomes of the state write that follows;
    when the payload has no ["from"] key the sender of the entry is ["?"],
    and when it has no ["message"] key the text of the entry is [""]. A
    missing field raises nothing: the handler returns normally once the
    input value has been assigned, and before that its only exception is
    the [AttributeError] of the state write, raised after the append and
    for every payload alike. *)
Theorem matching_event_defaults `{Imports} (self : TextEntity)
    (h : HomeAssistant) (event : Event) :
  matches self h event = true ->
  let '(r, self', _) := _on_meshtastic_event event self h in
  r = match _attr_native_value self with
      | Some _ => Return tt
      | None => Raise AttributeError
      end /\
  exists e : pydict,
    last (_history self') = Some e /\
    e !! "from" = Some (default (PStr "?") (data event !! "from")) /\
    e !! "message" = Some (default (PStr "") (data event !! "message")) /\
    e !! "timestamp" = Some (PFloat (timestamp (time_fired event))) /\
    (data event !! "from" = None -> e !! "from" = Some (PStr "?")) /\
    (data event !! "message" = None -> e !! "message" = Some (PStr "")).
Proof.
  intros Hm. pose proof (on_event_history event self h) as Hhist.
  rewrite Hm in Hhist. rewrite on_event_spec, Hm in *. cbv zeta in *.
  assert (Hentry : exists e : pydict,
    last (capped (_history self ++ [entry_of event])) = Some e /\
    e !! "from" = Some (default (PStr "?") (data event !! "from")) /\
    e !! "message" = Some (default (PStr "") (data event !! "message")) /\
    e !! "timestamp" = Some (PFloat (timestamp (time_fired event))) /\
    (data event !! "from" = None -> e !! "from" = Some (PStr "?")) /\
    (data event !! "message" = None -> e !! "message" = Some (PStr ""))).
  { exists (entry_of event). rewrite capped_last.
    unfold entry_of, MeshtasticChatMixin.entry, dict_get.
    split; [reflexivity |].
    assert (Hf : forall a b c : pyval,
               ({[ "from" := a; "message" := b; "timestamp" := c ]} : pydict)
                 !! "from" = Some a) by (intros; reflexivity).
    assert (Hg : forall a b c : pyval,
               ({[ "from" := a; "message" := b; "timestamp" := c ]} : pydict)
                 !! "message" = Some b) by (intros; reflexivity).
    assert (Ht : forall a b c : pyval,
               ({[ "from" := a; "message" := b; "timestamp" := c ]} : pydict)
                 !! "timestamp" = Some c) by (intros; reflexivity).
    rewrite Hf, Hg, Ht.
    repeat split; try reflexivity.
    - intros ->. reflexivity.
    - intros ->. reflexivity. }
  destruct (_attr_native_value self); simpl in *;
    (split; [reflexivity |]); rewrite Hhist; exact Hentry.
Qed.

Lemma matching_event_defaults_witness :
  matches (H := sample_imports) used_channel_chat (sample_hass false)
    (sample_event 7) = true /\
  matches (H := sample_imports) sample_channel_chat (sample_hass false)
    (sample_event 7) = true /\
  data (sample_event 7) !! "from" = None /\
  (let '(r, self', _) :=
     _on_meshtastic_event (H := sample_imports) (sample_event 7)
       used_channel_chat (sample_hass false) in
   r = Return tt /\
   exists e : pydict,
     last (_history self') = Some e /\
     e !! "from" = Some (PStr "?") /\
     e !! "message" = Some (PInt 7)) /\
  (let '(r, self', _) :=
     _on_meshtastic_event (H := sample_imports) (sample_event 7)
       sample_channel_chat (sample_hass false) in
   r = Raise AttributeError /\
   exists e : pydict,
     last (_history self') = Some e /\
     e !! "from" = Some (PStr "?") /\
     e !! "message" = Some (PInt 7)).
Proof.
  split; [reflexivity |]. split; [reflexivity |]. split; [reflexivity |].
  split.
  - pose proof (matching_event_defaults (H := sample_imports)
                  used_channel_chat (sample_hass false) (sample_event 7)
                  eq_refl) as Hd.
    destruct (_on_meshtastic_event (H := sample_imports) (sample_event 7)
                used_channel_chat (sample_hass false)) as [[r self'] h'].
    destruct Hd as (Hr & e & Hlast & _ & Hmsg & _ & Hfrom & _).
    split; [exact Hr |]. exists e. split; [exact Hlast |].
    split; [exact (Hfrom eq_refl) | exact Hmsg].
  - pose proof (matching_event_defaults (H := sample_imports)
                  sample_channel_chat (sample_hass false) (sample_event 7)
                  eq_refl) as Hd.
    destruct (_on_meshtastic_event (H := sample_imports) (sample_event 7)
                sample_channel_chat (sample_hass false)) as [[r self'] h'].
    destruct Hd as (Hr & e & Hlast & _ & Hmsg & _ & Hfrom & _).
    split; [exact Hr |]. exists e. split; [exact Hlast |].
    split; [exact (Hfrom eq_refl) | exact Hmsg].
Defined.

(** * Further properties *)

(** ** The button builder *)

(** X1. The builder asks the client for its own node once. When that call
    raises, the error propagates and no button is built. Otherwise there
    is one button per node, in the order of the nodes and with the node's
    id, none for an empty node set, and every button holds the client of
    the entry and the own node the client answered. *)
Theorem build_buttons_outcome (nodes : list (Z * pydict))
    (runtime_data : RuntimeData) (h : HomeAssistant) :
  let c := client runtime_data in
  let '(r, _, h') := button._build_buttons nodes runtime_data tt h in
  client_calls h' = client_calls h ++ [(c, get_own_node_call)] /\
  if raises (clients h c) (client_calls h) get_own_node_call
  then r = Raise (ClientError c get_own_node_call)
  else
    exists buttons,
      r = Return buttons /\
      button.MeshtasticNodeRebootButton._node_id <$> buttons = nodes.*1 /\
      length buttons = length nodes /\
      Forall (fun b =>
                button.MeshtasticNodeRebootButton._client b = c /\
                button.MeshtasticNodeRebootButton.gateway b
                = own_node (clients h c)) buttons.
Proof.
  unfold button._build_buttons, get_own_node, get_own_node_call.
  py_unfold. simpl.
  destruct (raises _ _ _); simpl; [auto |].
  split; [reflexivity |]. eexists. split; [reflexivity |].
  split; [| split].
  - induction (nodes.*1) as [| n l IH]; [reflexivity |].
    simpl. f_equal. exact IH.
  - rewrite !length_fmap. reflexivity.
  - apply Forall_fmap, Forall_forall. intros n _. simpl. auto.
Qed.

Lemma press_all_calls (c : ClientRef)
    (buttons : list button.MeshtasticNodeRebootButton.t)
    (h : HomeAssistant) :
  Forall (fun b => button.MeshtasticNodeRebootButton._client b = c) buttons ->
  client_calls (press_all buttons h)
  = client_calls h ++ replicate (length buttons) (c, reboot_5).
Proof.
  revert h. induction buttons as [| b buttons IH]; intros h Hall.
  - simpl. rewrite app_nil_r. reflexivity.
  - inversion Hall as [| ? ? Hb Hrest]; subst. simpl press_all.
    rewrite (IH _ Hrest).
    unfold button.MeshtasticNodeRebootButton.async_press. py_unfold. simpl.
    destruct (raises _ _ _); simpl; rewrite <- (assoc_L (++)); reflexivity.
Qed.

(** X2. Pressing, one after the other, the buttons built for a set of
    nodes makes as many calls as there are nodes, all of them [reboot(5)]
    on the one client of the entry, whether the calls return or raise. *)
Theorem pressing_built_buttons (nodes : list (Z * pydict))
    (runtime_data : RuntimeData) (h h1 : HomeAssistant) (s : unit)
    (buttons : list button.MeshtasticNodeRebootButton.t) :
  button._build_buttons nodes runtime_data tt h = (Return buttons, s, h1) ->
  forall h2 : HomeAssistant,
    client_calls (press_all buttons h2)
    = client_calls h2
        ++ replicate (length nodes) (client runtime_data, reboot_5).
Proof.
  intros Hbuild h2.
  revert Hbuild. unfold button._build_buttons, get_own_node. py_unfold. simpl.
  destruct (raises _ _ _); [discriminate |]. intros [= <- _ _].
  rewrite (press_all_calls (client runtime_data)).
  - rewrite !length_fmap. reflexivity.
  - apply Forall_fmap, Forall_forall. intros n _. reflexivity.
Qed.

Lemma pressing_built_buttons_witness :
  let built :=
    button._build_buttons sample_nodes (runtime_data sample_entry) tt
      (sample_hass false) in
  let buttons :=
    match built.1.1 with Return buttons => buttons | Raise _ => [] end in
  built = (Return buttons, built.1.2, built.2) /\
  client_calls (press_all buttons (sample_hass true))
  = [(7%nat, reboot_5); (7%nat, reboot_5); (7%nat, reboot_5)].
Proof.
  cbv zeta.
  assert (Hbuilt :
    button._build_buttons sample_nodes (runtime_data sample_entry) tt
      (sample_hass false)
    = (Return
         match
           (button._build_buttons sample_nodes (runtime_data sample_entry)
              tt (sample_hass false)).1.1
         with Return buttons => buttons | Raise _ => [] end,
       (button._build_buttons sample_nodes (runtime_data sample_entry) tt
          (sample_hass false)).1.2,
       (button._build_buttons sample_nodes (runtime_data sample_entry) tt
          (sample_hass false)).2)) by reflexivity.
  split; [exact Hbuilt |].
  exact (pressing_built_buttons sample_nodes (runtime_data sample_entry)
           (sample_hass false) _ _ _ Hbuilt (sample_hass true)).
Defined.

(** ** Operations on a chat entity *)

Lemma matches_perform `{Imports} (o : operation) (self : TextEntity)
    (h : HomeAssistant) (event : Event) :
  matches (perform o self h).1.2 (perform o self h).2 event
  = matches self h event.
Proof.
  destruct o as [value | ev]; simpl.
  - rewrite set_value_spec. cbv zeta. destruct (raises _ _ _); simpl.
    + destruct self; reflexivity.
    + destruct self; reflexivity.
  - rewrite on_event_spec. destruct (matches self h ev); simpl.
    + destruct (_attr_native_value self); simpl.
      * apply matches_stable.
      * apply matches_with_history.
    + reflexivity.
Qed.

Lemma matching_entries_perform `{Imports} (o : operation)
    (self : TextEntity) (h : HomeAssistant) (os : list operation) :
  matching_entries (perform o self h).1.2 (perform o self h).2 os
  = matching_entries self h os.
Proof.
  induction os as [| [value | event] os IH]; simpl;
    [reflexivity | exact IH |].
  rewrite matches_perform, IH. reflexivity.
Qed.

Lemma run_feeds_matching_entries `{Imports} (os : list operation)
    (self : TextEntity) (h : HomeAssistant) :
  _history (run os self h).1
  = fold_left (fun acc e => capped (acc ++ [e])) (matching_entries self h os)
      (_history self).
Proof.
  revert self h. induction os as [| o os IH]; intros self h; [reflexivity |].
  simpl run.
  pose proof (matching_entries_perform o self h os) as Hme.
  destruct (perform o self h) as [[r self'] h'] eqn:Hp. simpl in Hme.
  rewrite IH, Hme. clear IH Hme.
  destruct o as [value | event]; simpl in *.
  - rewrite set_value_spec in Hp. cbv zeta in Hp.
    destruct (raises _ _ _); injection Hp as <- <- <-.
    + reflexivity.
    + rewrite history_with_native_value. reflexivity.
  - pose proof (on_event_history event self h) as Hh.
    rewrite Hp in Hh. simpl in Hh. rewrite Hh.
    destruct (matches self h event); reflexivity.
Qed.

(** X3. Through any sequence of submissions and events, failed sends and
    events for other entities included, the history of an entity that
    started empty is the entries of the last fifty events that matched it,
    in order of arrival. *)
Theorem history_is_last_fifty_matching `{Imports} (os : list operation)
    (self : TextEntity) (h : HomeAssistant) :
  _history self = [] ->
  _history (run os self h).1
  = drop (length (matching_entries self h os) - 50)
      (matching_entries self h os).
Proof.
  intros Hempty. rewrite run_feeds_matching_entries, Hempty.
  rewrite window_fold by (simpl; lia). reflexivity.
Qed.

Lemma history_is_last_fifty_matching_witness :
  _history sample_channel_chat = [] /\
  _history
    (run (H := sample_imports) sample_operations sample_channel_chat
       (sample_hass true)).1
  = [entry_of (sample_event 1); entry_of (sample_event 2);
     entry_of (sample_event 3)].
Proof.
  split; [reflexivity |].
  exact (history_is_last_fifty_matching (H := sample_imports)
           sample_operations sample_channel_chat (sample_hass true) eq_refl).
Defined.

(** X4. Handling an event never changes the input value and never calls
    the client; submitting a text never changes the history, so a sent
    text is not recorded in it. *)
Theorem operations_keep_apart `{Imports} (self : TextEntity)
    (h : HomeAssistant) :
  (forall event : Event,
     let '(_, self', h') := _on_meshtastic_event event self h in
     _attr_native_value self' = _attr_native_value self /\
     client_calls h' = client_calls h) /\
  (forall value : string,
     let '(_, self', h') := async_set_value value self h in
     _history self' = _history self).
Proof.
  split.
  - intros event. rewrite on_event_spec.
    destruct (matches self h event); simpl; [| auto].
    destruct (_attr_native_value self) eqn:Hnv; simpl;
      (split; [destruct self; exact Hnv | reflexivity]).
  - intros value. rewrite set_value_spec. cbv zeta.
    destruct (raises _ _ _); [reflexivity |].
    apply history_with_native_value.
Qed.

Lemma perform_writes_capped `{Imports} (o : operation) (self : TextEntity)
    (h : HomeAssistant) :
  (length (_history self) <= 50)%nat ->
  Forall (fun w => (length (written_history w) <= 50)%nat) (states h) ->
  Forall (fun w => (length (written_history w) <= 50)%nat)
    (states (perform o self h).2).
Proof.
  intros Hl Hall. destruct o as [value | event]; simpl.
  - rewrite set_value_spec. cbv zeta. destruct (raises _ _ _); simpl.
    + exact Hall.
    + apply Forall_app. split; [exact Hall |]. apply Forall_singleton.
      simpl. rewrite history_with_native_value. exact Hl.
  - rewrite on_event_spec. destruct (matches self h event); simpl.
    + destruct (_attr_native_value self); simpl; [| exact Hall].
      apply Forall_app. split; [exact Hall |]. apply Forall_singleton.
      simpl. rewrite history_with_history. apply capped_length. exact Hl.
    + exact Hall.
Qed.

(** X5. Every state an entity writes, through any sequence of
    operations, shows a history of at most fifty entries: the list of
    fifty-one that exists between the append and the eviction is never
    written. *)
Theorem written_histories_are_capped `{Imports} (os : list operation)
    (self : TextEntity) (h : HomeAssistant) :
  (length (_history self) <= 50)%nat ->
  Forall (fun w => (length (written_history w) <= 50)%nat) (states h) ->
  Forall (fun w => (length (written_history w) <= 50)%nat)
    (states (run os self h).2).
Proof.
  revert self h. induction os as [| o os IH]; intros self h Hl Hall;
    [exact Hall |].
  simpl run.
  pose proof (perform_keeps_cap o self h Hl) as Hl'.
  pose proof (perform_writes_capped o self h Hl Hall) as Hall'.
  destruct (perform o self h) as [[r self'] h']. apply IH; assumption.
Qed.

Lemma written_histories_are_capped_witness :
  (length (_history used_channel_chat) <= 50)%nat /\
  Forall (fun w => (length (written_history w) <= 50)%nat)
    (states (sample_hass false)) /\
  Forall (fun w => (length (written_history w) <= 50)%nat)
    (states
       (run (H := sample_imports)
          (Deliver <$> (sample_event <$> seqZ 0 60)) used_channel_chat
          (sample_hass false)).2).
Proof.
  assert (Hl : (length (_history used_channel_chat) <= 50)%nat)
    by (simpl; lia).
  assert (Hall : Forall (fun w => (length (written_history w) <= 50)%nat)
                   (states (sample_hass false))) by constructor.
  split; [exact Hl |]. split; [exact Hall |].
  exact (written_histories_are_capped (H := sample_imports) _ _ _ Hl Hall).
Defined.

(** ** Identity *)

Lemma derived_unique_id_constructed_witness :
  every not_underscore (entry_id sample_entry) = true /\
  derived_unique_id (H := sample_imports) sample_channel_chat
  = Return "entry1_gateway_42_channel_0" /\
  derived_unique_id (H := sample_imports) sample_dm_chat
  = Return "entry1_gateway_42_dm".
Proof.
  split; [reflexivity |].
  exact (derived_unique_id_constructed (H := sample_imports) sample_own_node
           sample_own_node sample_entry sample_primary eq_refl).
Defined.

Lemma split_nonempty (s : string) : split "_" s <> [].
Proof.
  destruct s as [| c s]; [discriminate |]. simpl.
  destruct (Ascii.eqb c "_"); [discriminate |].
  destruct (split "_" s); discriminate.
Qed.

(** Splitting distributes over the separator. *)
Lemma split_sep_app (a b : string) :
  split "_" (a +:+ String "_" b) = split "_" a ++ split "_" b.
Proof.
  induction a as [| c a IH]; [reflexivity |]. simpl.
  destruct (Ascii.eqb c "_").
  - rewrite IH. reflexivity.
  - rewrite IH. pose proof (split_nonempty a) as Hne.
    destruct (split "_" a) as [| w ws]; [contradiction | reflexivity].
Qed.

Lemma split_unique_ids (e : string) (n i : Z) :
  split "_" (e +:+ "_chat_channel_" +:+ str n +:+ "_" +:+ str i)
  = split "_" e ++ ["chat"; "channel"; str n; str i] /\
  split "_" (e +:+ "_chat_dm_" +:+ str n)
  = split "_" e ++ ["chat"; "dm"; str n].
Proof.
  split.
  - change (e +:+ "_chat_channel_" +:+ str n +:+ "_" +:+ str i)
      with (e +:+ String "_" ("chat" +:+ String "_" ("channel" +:+
              String "_" (str n +:+ String "_" (str i))))).
    rewrite split_sep_app. f_equal.
    rewrite (split_app "chat") by reflexivity.
    rewrite (split_app "channel") by reflexivity.
    rewrite (split_app (str n)) by apply str_not_underscore.
    rewrite split_plain by apply str_not_underscore. reflexivity.
  - change (e +:+ "_chat_dm_" +:+ str n)
      with (e +:+ String "_" ("chat" +:+ String "_" ("dm" +:+
              String "_" (str n)))).
    rewrite split_sep_app. f_equal.
    rewrite (split_app "chat") by reflexivity.
    rewrite (split_app "dm") by reflexivity.
    rewrite split_plain by apply str_not_underscore. reflexivity.
Qed.

Lemma derived_unique_id_underscore `{Imports} (own gw : OwnNode)
    (entry : ConfigEntry) (c : Channel) :
  length (split "_" (entry_id entry)) = 2%nat
  \/ length (split "_" (entry_id entry)) = 3%nat ->
  derived_unique_id (ChannelText (channel_text own entry gw c))
  = Raise ValueError /\
  derived_unique_id (DirectMessageText (direct_message_text own entry gw))
  = Raise ValueError.
Proof.
  intros Hlen. unfold derived_unique_id. simpl _attr_unique_id.
  destruct (split_unique_ids (entry_id entry) (num gw) (index c))
    as [-> ->].
  destruct (split "_" (entry_id entry)) as [| a [| b [| d [| x l]]]];
    simpl in Hlen; try (destruct Hlen; discriminate);
    split; reflexivity.
Qed.

(** X7. When the config entry id has one or two underscores, the fourth
    piece of the unique id is a word, not the gateway node, and the
    handler of every chat entity of the entry raises [ValueError] on every
    event, leaving the entity as it was. *)
Theorem underscore_in_entry_id_breaks_handler `{Imports} (own gw : OwnNode)
    (entry : ConfigEntry) (c : Channel) (event : Event)
    (h : HomeAssistant) :
  length (split "_" (entry_id entry)) = 2%nat
  \/ length (split "_" (entry_id entry)) = 3%nat ->
  _on_meshtastic_event event (ChannelText (channel_text own entry gw c)) h
  = (Raise ValueError, ChannelText (channel_text own entry gw c), h) /\
  _on_meshtastic_event event
    (DirectMessageText (direct_message_text own entry gw)) h
  = (Raise ValueError,
     DirectMessageText (direct_message_text own entry gw), h).
Proof.
  intros Hlen.
  destruct (derived_unique_id_underscore own gw entry c Hlen) as [Hc Hd].
  split; rewrite on_event_spec; unfold matches, resolved.
  - rewrite Hc. reflexivity.
  - rewrite Hd. reflexivity.
Qed.

Lemma underscore_in_entry_id_breaks_handler_witness :
  length (split "_" (entry_id sample_entry_underscore)) = 2%nat /\
  let self :=
    ChannelText
      (channel_text sample_own_node sample_entry_underscore sample_own_node
         sample_primary) in
  _on_meshtastic_event (H := sample_imports) (sample_event 1) self
    (sample_hass false)
  = (Raise ValueError, self, sample_hass false).
Proof.
  split; [reflexivity |].
  exact (proj1 (underscore_in_entry_id_breaks_handler (H := sample_imports)
                  sample_own_node sample_own_node sample_entry_underscore
                  sample_primary (sample_event 1) (sample_hass false)
                  (or_introl eq_refl))).
Defined.

Lemma channel_unique_id_inj (e : string) (n i j : Z) :
  e +:+ "_chat_channel_" +:+ str n +:+ "_" +:+ str i
  = e +:+ "_chat_channel_" +:+ str n +:+ "_" +:+ str j ->
  i = j.
Proof.
  intros Heq.
  apply (inj (String.append e)) in Heq.
  apply (inj (String.append "_chat_channel_")) in Heq.
  apply (inj (String.append (str n))) in Heq.
  apply (inj (String.append "_")) in Heq.
  exact (inj pretty i j Heq).
Qed.

Lemma channel_unique_id_not_dm (e : string) (n m i : Z) :
  e +:+ "_chat_channel_" +:+ str n +:+ "_" +:+ str i
  <> e +:+ "_chat_dm_" +:+ str m.
Proof.
  intros Heq. apply (inj (String.append e)) in Heq. discriminate.
Qed.

(** X8. When the channels that are not disabled have distinct indexes,
    the entities that setup builds have pairwise distinct unique ids. *)
Theorem setup_unique_ids_distinct (h : HomeAssistant) (entry : ConfigEntry) :
  NoDup (index <$> filter (fun ch => role ch <> "DISABLED")
           (channels (clients h (client (runtime_data entry))))) ->
  NoDup (_attr_unique_id <$> set_up h entry).
Proof.
  intros Hnd. unfold set_up. rewrite fmap_app, <- list_fmap_compose.
  set (own := own_node (clients h (client (runtime_data entry)))).
  set (chans := filter _ _) in *.
  apply NoDup_app. split; [| split].
  - clearbody chans. induction chans as [| ch chans IH]; [constructor |].
    simpl in *. apply NoDup_cons in Hnd as [Hnotin Hnd].
    apply NoDup_cons. split; [| exact (IH Hnd)].
    intros Hin. apply Hnotin.
    apply list_elem_of_fmap in Hin as (ch' & Heq & Hin').
    apply channel_unique_id_inj in Heq. rewrite Heq.
    apply list_elem_of_fmap. exists ch'. split; [reflexivity | exact Hin'].
  - intros uid Hin Hdm. apply list_elem_of_singleton in Hdm. subst uid.
    apply list_elem_of_fmap in Hin as (ch & Heq & _). simpl in Heq.
    symmetry in Heq. exact (channel_unique_id_not_dm _ _ _ _ Heq).
  - simpl. apply NoDup_singleton.
Qed.

Lemma setup_unique_ids_distinct_witness :
  NoDup (index <$> filter (fun ch => role ch <> "DISABLED")
           (channels (clients (sample_hass false)
                        (client (runtime_data sample_entry))))) /\
  NoDup ["entry1_chat_channel_42_0"; "entry1_chat_channel_42_2";
         "entry1_chat_dm_42"].
Proof.
  assert (Hnd :
    NoDup (index <$> filter (fun ch => role ch <> "DISABLED")
             (channels (clients (sample_hass false)
                          (client (runtime_data sample_entry)))))).
  { apply (NoDup_cons_2 0 [2]); [| apply NoDup_singleton].
    intros Hin. apply list_elem_of_singleton in Hin. discriminate. }
  split; [exact Hnd |].
  exact (setup_unique_ids_distinct (sample_hass false) sample_entry Hnd).
Defined.

(** X9. No sequence of operations changes the identity of an entity: its
    unique id, its client, its suggested object id and the unique id its
    handler derives stay the same, and the registry is not written. *)
Theorem identity_is_stable `{Imports} (os : list operation)
    (self : TextEntity) (h : HomeAssistant) :
  let '(self', h') := run os self h in
  _attr_unique_id self' = _attr_unique_id self /\
  _client self' = _client self /\
  suggested_id self' = suggested_id self /\
  derived_unique_id self' = derived_unique_id self /\
  entity_registry h' = entity_registry h.
Proof.
  revert self h. induction os as [| o os IH]; intros self h; [simpl; auto |].
  simpl run.
  assert (Hstep :
    _attr_unique_id (perform o self h).1.2 = _attr_unique_id self /\
    _client (perform o self h).1.2 = _client self /\
    suggested_id (perform o self h).1.2 = suggested_id self /\
    derived_unique_id (perform o self h).1.2 = derived_unique_id self /\
    entity_registry (perform o self h).2 = entity_registry h).
  { destruct o as [value | event]; simpl.
    - rewrite set_value_spec. cbv zeta.
      destruct (raises _ _ _); simpl; [auto |].
      destruct self; simpl; auto.
    - rewrite on_event_spec.
      destruct (matches self h event); simpl; [| auto].
      destruct (_attr_native_value self); destruct self; simpl; auto. }
  destruct (perform o self h) as [[r self1] h1]. simpl in Hstep.
  specialize (IH self1 h1). destruct (run os self1 h1) as [self' h'].
  destruct Hstep as (S1 & S2 & S3 & S4 & S5).
  destruct IH as (I1 & I2 & I3 & I4 & I5).
  repeat split; congruence.
Qed.

Lemma matching_same_event `{Imports} (self1 self2 : TextEntity)
    (h1 h2 : HomeAssistant) (event : Event) :
  matches self1 h1 event = true ->
  matches self2 h2 event = true ->
  resolved self1 h1 = resolved self2 h2.
Proof.
  unfold matches.
  destruct (resolved self1 h1) as [eid1 |]; [| discriminate].
  destruct (resolved self2 h2) as [eid2 |]; [| discriminate].
  intros [_ E1]%andb_prop [_ E2]%andb_prop.
  destruct (dict_get_none (data event) "entity_id"); try discriminate.
  simpl in E1, E2. apply String.eqb_eq in E1, E2. subst. reflexivity.
Qed.

(** X10. Two chat entities for which the registry resolves different
    entity ids never both record the same event: handling it leaves the
    history of at least one of them as it was. *)
Theorem event_goes_to_one_entity_id `{Imports} (self1 self2 : TextEntity)
    (h1 h2 : HomeAssistant) (event : Event) :
  resolved self1 h1 <> resolved self2 h2 ->
  _history (_on_meshtastic_event event self1 h1).1.2 = _history self1 \/
  _history (_on_meshtastic_event event self2 h2).1.2 = _history self2.
Proof.
  intros Hdiff. rewrite !on_event_history.
  destruct (matches self1 h1 event) eqn:M1; [| left; reflexivity].
  destruct (matches self2 h2 event) eqn:M2; [| right; reflexivity].
  destruct (Hdiff (matching_same_event self1 self2 h1 h2 event M1 M2)).
Qed.

Lemma event_goes_to_one_entity_id_witness :
  resolved (H := sample_imports) sample_channel_chat (sample_hass false)
  <> resolved (H := sample_imports) sample_dm_chat (sample_hass true) /\
  (_history
     (_on_meshtastic_event (H := sample_imports) (sample_event 1)
        sample_channel_chat (sample_hass false)).1.2
   = _history sample_channel_chat \/
   _history
     (_on_meshtastic_event (H := sample_imports) (sample_event 1)
        sample_dm_chat (sample_hass true)).1.2
   = _history sample_dm_chat).
Proof.
  assert (Hdiff :
    resolved (H := sample_imports) sample_channel_chat (sample_hass false)
    <> resolved (H := sample_imports) sample_dm_chat (sample_hass true))
    by (vm_compute; discriminate).
  split; [exact Hdiff |].
  exact (event_goes_to_one_entity_id (H := sample_imports)
           sample_channel_chat sample_dm_chat (sample_hass false)
           (sample_hass true) (sample_event 1) Hdiff).
Defined.

(** ** Suggested object ids *)

Lemma lower_app (a b : string) : lower (a +:+ b) = lower a +:+ lower b.
Proof.
  induction a as [| c a IH]; [reflexivity |]. simpl. rewrite IH. reflexivity.
Qed.

Lemma replace_app (old new : ascii) (a b : string) :
  replace old new (a +:+ b) = replace old new a +:+ replace old new b.
Proof.
  induction a as [| c a IH]; [reflexivity |]. simpl. rewrite IH. reflexivity.
Qed.

Lemma lower_plain (s : string) :
  every (fun c => negb (is_upper c)) s = true -> lower s = s.
Proof.
  induction s as [| c s IH]; [reflexivity |]. simpl.
  intros [Hc Hs]%andb_prop. rewrite (IH Hs). unfold lower_char.
  unfold is_upper in Hc. apply negb_true_iff in Hc. rewrite Hc. reflexivity.
Qed.

Lemma replace_plain (s : string) :
  every not_space s = true -> replace " " "_" s = s.
Proof.
  induction s as [| c s IH]; [reflexivity |]. simpl.
  intros [Hc Hs]%andb_prop. rewrite (IH Hs).
  unfold not_space in Hc. apply negb_true_iff in Hc. rewrite Hc. reflexivity.
Qed.

Lemma is_digit_not_upper (c : ascii) :
  is_digit c = true -> negb (is_upper c) = true.
Proof.
  unfold is_digit, digit_of, is_upper.
  destruct (48 <=? nat_of_ascii c)%nat eqn:H1; [| discriminate].
  destruct (nat_of_ascii c <=? 57)%nat eqn:H2; [| discriminate].
  intros _. apply Nat.leb_le in H1, H2. apply negb_true_iff.
  apply andb_false_iff. left. apply Nat.leb_gt. lia.
Qed.

Lemma is_digit_is_not_space (c : ascii) :
  is_digit c = true -> not_space c = true.
Proof.
  unfold not_space. destruct (Ascii.eqb_spec c " ") as [-> | _];
    [discriminate | reflexivity].
Qed.

Lemma replace_no_space (s : string) :
  every not_space (replace " " "_" s) = true.
Proof.
  induction s as [| c s IH]; [reflexivity |]. simpl. rewrite IH.
  destruct (Ascii.eqb_spec c " ") as [-> | Hne]; [reflexivity |].
  unfold not_space. apply Ascii.eqb_neq in Hne. rewrite Hne. reflexivity.
Qed.

(** X11. The suggested object id of a channel chat has no space. For a
    named channel it is the lower-cased name with spaces turned into
    underscores, between ["meshtastic_"] and ["_chat"]; for an unnamed one
    it is ["meshtastic_primary_chat"], ["meshtastic_secondary_chat"] or
    ["meshtastic_channel_<index>_chat"], the primary role first. *)
Theorem suggested_object_id_of_channel (own gw : OwnNode)
    (entry : ConfigEntry) (c : Channel) :
  let id :=
    MeshtasticChannelText.suggested_object_id
      (channel_text own entry gw c) in
  every not_space id = true /\
  (name (settings c) <> "" ->
   id = "meshtastic_" +:+ replace " " "_" (lower (name (settings c)))
          +:+ "_chat") /\
  (name (settings c) = "" ->
   id = if String.eqb (role c) "PRIMARY" then "meshtastic_primary_chat"
        else if String.eqb (role c) "SECONDARY"
             then "meshtastic_secondary_chat"
             else "meshtastic_channel_" +:+ str (index c) +:+ "_chat").
Proof.
  cbv zeta. unfold MeshtasticChannelText.suggested_object_id.
  simpl MeshtasticChannelText._attr_name. split; [| split].
  - change (every not_space ("meshtastic_" +:+ ?x))
      with (every not_space x). apply replace_no_space.
  - intros Hname. apply String.eqb_neq in Hname. rewrite Hname.
    rewrite lower_app, replace_app. reflexivity.
  - intros Hname. rewrite Hname. simpl String.eqb. cbv iota.
    destruct (String.eqb (role c) "PRIMARY"); [reflexivity |].
    destruct (String.eqb (role c) "SECONDARY"); [reflexivity |].
    rewrite !lower_app, !replace_app.
    rewrite (lower_plain (str (index c)))
      by (apply every_str; [apply is_digit_not_upper | reflexivity]).
    rewrite (replace_plain (str (index c)))
      by (apply every_str; [apply is_digit_is_not_space | reflexivity]).
    reflexivity.
Qed.

Lemma suggested_object_id_of_channel_witness :
  name (settings sample_secondary) <> "" /\
  name (settings sample_primary) = "" /\
  MeshtasticChannelText.suggested_object_id
    (channel_text sample_own_node sample_entry sample_own_node
       sample_secondary) = "meshtastic_ops_chat" /\
  MeshtasticChannelText.suggested_object_id
    (channel_text sample_own_node sample_entry sample_own_node
       sample_primary) = "meshtastic_primary_chat".
Proof.
  assert (Hs : name (settings sample_secondary) <> "") by discriminate.
  split; [exact Hs |]. split; [reflexivity |]. split.
  - exact (proj1 (proj2 (suggested_object_id_of_channel sample_own_node
                           sample_own_node sample_entry sample_secondary))
             Hs).
  - exact (proj2 (proj2 (suggested_object_id_of_channel sample_own_node
                           sample_own_node sample_entry sample_primary))
             eq_refl).
Defined.

(** ** The calls of setup *)

Lemma setup_loop_calls (entry : ConfigEntry) (gw : OwnNode)
    (cs : list Channel) (f : Frame) (h : HomeAssistant) :
  let c := client (runtime_data entry) in
  reliable (clients h c) ->
  let '(r, _, h') :=
    for_ cs (fun channel =>
      if negb (String.eqb (role channel) "DISABLED") then
        e ← MeshtasticChannelText.__init__
               (entry_id entry) (num gw) (index channel)
               (name (settings channel))
               (String.eqb (role channel) "PRIMARY")
               (String.eqb (role channel) "SECONDARY")
               c;
        append (ChannelText e)
      else mret tt) f h in
  r = Return tt /\
  clients h' = clients h /\
  client_calls h' =
  client_calls h ++
    replicate (length (filter (fun c => role c <> "DISABLED") cs))
      (c, get_own_node_call).
Proof.
  simpl. revert f h. induction cs as [| ch cs IH]; intros f h Hrel.
  - simpl. unfold mret, Py_ret. rewrite app_nil_r. auto.
  - simpl for_. unfold mbind at 1. unfold Py_bind at 1.
    destruct (decide (role ch <> "DISABLED")) as [Hen | Hen].
    + rewrite filter_cons_True by exact Hen.
      apply String.eqb_neq in Hen. rewrite Hen. cbn [negb].
      setup_unfold. simpl. rewrite Hrel.
      match goal with
      | |- context [for_ cs ?b ?f0 ?h0] =>
          specialize (IH f0 h0 Hrel);
          destruct (for_ cs b f0 h0) as [[r f'] h']
      end.
      simpl in IH. destruct IH as (Hr & Hc & Hcalls).
      split; [exact Hr |]. split; [exact Hc |]. rewrite Hcalls. simpl.
      rewrite <- (assoc_L (++)). reflexivity.
    + rewrite filter_cons_False by exact Hen.
      apply dec_stable, String.eqb_eq in Hen. rewrite Hen. cbn [negb].
      unfold mret at 1. unfold Py_ret at 1.
      specialize (IH f h Hrel).
      match goal with
      | |- context [for_ cs ?b f h] => destruct (for_ cs b f h) as [[r f'] h']
      end.
      exact IH.
Qed.

(** X12. When the client answers, setup calls it for the own node, for
    the channels, and then once more for the own node for every entity it
    constructs: one per channel that is not disabled and one for the
    direct-message chat. *)
Theorem setup_client_calls (entry : ConfigEntry) (f : Frame)
    (h : HomeAssistant) :
  let c := client (runtime_data entry) in
  reliable (clients h c) ->
  client_calls (async_setup_entry entry f h).2 =
  client_calls h ++
    [(c, {| method := "async_get_own_node"; args := []; kwargs := [] |});
     (c, {| method := "async_get_channels"; args := []; kwargs := [] |})] ++
    replicate
      (S (length (filter (fun ch => role ch <> "DISABLED")
                    (channels (clients h c)))))
      (c, get_own_node_call).
Proof.
  cbv zeta. intros Hrel. unfold async_setup_entry.
  set (c := client (runtime_data entry)) in *.
  unfold async_get_own_node at 1. unfold async_get_channels at 1.
  py_unfold. rewrite Hrel. simpl raises. rewrite Hrel.
  match goal with
  | |- context [for_ ?cs ?b ?f0 ?h0] =>
      pose proof (setup_loop_calls entry (own_node (clients h c)) cs f0 h0
                    Hrel) as L;
      cbv zeta in L;
      match type of L with
      | context [for_ cs ?b1 f0 h0] => change b1 with b in L
      end;
      destruct (for_ cs b f0 h0) as [[r f'] h']
  end.
  destruct L as (-> & Hc & Hcalls). simpl in Hc, Hcalls. fold c in Hcalls.
  setup_unfold. rewrite Hc, Hrel. simpl. rewrite Hcalls.
  rewrite <- !(assoc_L (++)). simpl. do 3 f_equal.
  generalize (length (filter (fun c0 : Channel => role c0 <> "DISABLED")
                        (channels (clients h c)))).
  intros k. induction k as [| k IH]; [reflexivity |].
  simpl. rewrite IH. reflexivity.
Qed.

Lemma setup_client_calls_witness :
  reliable (clients (sample_hass false) (client (runtime_data sample_entry)))
  /\
  client_calls
    (async_setup_entry sample_entry sample_frame (sample_hass false)).2
  = [(7%nat,
      {| method := "async_get_own_node"; args := []; kwargs := [] |});
     (7%nat,
      {| method := "async_get_channels"; args := []; kwargs := [] |});
     (7%nat, get_own_node_call); (7%nat, get_own_node_call);
     (7%nat, get_own_node_call)].
Proof.
  assert (Hrel : reliable (clients (sample_hass false)
                             (client (runtime_data sample_entry))))
    by (intros calls cl; reflexivity).
  split; [exact Hrel |].
  exact (setup_client_calls sample_entry sample_frame (sample_hass false)
           Hrel).
Defined.

(** X13. An event whose payload has no ["entity_id"] key raises no
    [KeyError] and is recorded by no entity: the entity and the Home
    Assistant instance are as before, and the handler returns normally
    whenever the unique id can be derived. *)
Theorem event_without_entity_id_is_ignored `{Imports} (self : TextEntity)
    (h : HomeAssistant) (event : Event) :
  data event !! "entity_id" = None ->
  _on_meshtastic_event event self h =
  (match derived_unique_id self with
   | Return _ => Return tt
   | Raise e => Raise e
   end, self, h).
Proof.
  intros Hkey. rewrite on_event_spec.
  replace (matches self h event) with false; [reflexivity |].
  unfold matches, dict_get_none, dict_get. rewrite Hkey. simpl.
  destruct (resolved self h); [| reflexivity].
  rewrite andb_false_r. reflexivity.
Qed.

Lemma event_without_entity_id_is_ignored_witness :
  data bare_event !! "entity_id" = None /\
  _on_meshtastic_event (H := sample_imports) bare_event sample_dm_chat
    (sample_hass false)
  = (Return tt, sample_dm_chat, sample_hass false).
Proof.
  split; [reflexivity |].
  exact (event_without_entity_id_is_ignored (H := sample_imports)
           sample_dm_chat (sample_hass false) bare_event eq_refl).
Defined.
